(** * zimabook: the three browser widgets, embedded and verified

  The repository ships three leaf widgets:
  - [DataTable]       (custom element <data-table>, server-backed table),
  - [Notebook]        (static/notebook.js, the live document over a socket),
  - [TextareaWrapper] (static/textarea_wrapper.js, the tracked text box).

  Every handler of the JavaScript source is translated to a function in a
  small monad [M] that threads the widget's mutable fields, records the
  calls made to the platform (socket, jQuery, alert, DOM) in the order
  they happen, and can end in an uncaught exception.  An exception aborts
  the rest of the handler but keeps the mutations and the calls made so
  far, as in JavaScript. *)

From Stdlib Require Import Ascii.
From stdpp Require Import base strings list gmap fin_maps.

Set Default Proof Using "Type".
Local Open Scope Z_scope.
Local Open Scope string_scope.

(** ** JavaScript values, platform calls and the handler monad *)

Module Js.

(** Values that cross the widgets' boundaries: what [JSON.parse] can
    produce, plus [undefined].  A number is never computed with here; it
    is carried as the bit pattern of its IEEE-754 double.  An array keeps
    the named (non-index) properties that an assignment may add to it. *)
#[warnings="-register-all"] Inductive JsValue : Type :=
  | JUndefined
  | JNull
  | JBool (b : bool)
  | JNum (bits : Z)
  | JStr (s : string)
  | JArr (items : list JsValue) (named : gmap string JsValue)
  | JObj (props : gmap string JsValue).

Inductive Error : Type :=
  | TypeError
  | SyntaxError.

(** [v.k] for a key [k] that no built-in prototype defines (the widgets
    read [name], [params] and [content] only). *)
Definition get_prop (v : JsValue) (k : string) : Error + JsValue :=
  match v with
  | JUndefined | JNull => inl TypeError
  | JObj props => inr (default JUndefined (props !! k))
  | JArr _ named => inr (default JUndefined (named !! k))
  | JBool _ | JNum _ | JStr _ => inr JUndefined
  end.

(** [v.k = x] in strict code (class bodies are strict): creating a
    property on a primitive throws, as does any write on null/undefined. *)
Definition set_prop (v : JsValue) (k : string) (x : JsValue) : Error + JsValue :=
  match v with
  | JObj props => inr (JObj (<[k := x]> props))
  | JArr items named => inr (JArr items (<[k := x]> named))
  | JUndefined | JNull | JBool _ | JNum _ | JStr _ => inl TypeError
  end.

(** Truthiness of what [getAttribute] returns: null and the empty string
    are falsy. *)
Definition truthy (a : option string) : bool :=
  match a with
  | None => false
  | Some s => negb (bool_decide (s = ""))
  end.

(** [s == o] where [s] is a string and [o] is a string or null: two
    strings compare by content, a string never equals null. *)
Definition loose_eq (s : string) (o : option string) : bool :=
  match o with
  | None => false
  | Some s' => bool_decide (s = s')
  end.

(** [a !== b] on attribute values (string or null). *)
Definition strict_neq (a b : option string) : bool :=
  negb (bool_decide (a = b)).

(** [String.prototype.indexOf]: position of the first occurrence of
    [needle], or -1.  Positions count bytes here and UTF-16 units in the
    browser; the widgets only compare the result with -1. *)
Fixpoint indexOf_from (needle s : string) (i : Z) : Z :=
  if String.prefix needle s then i
  else match s with
       | EmptyString => -1
       | String _ rest => indexOf_from needle rest (i + 1)
       end.

Definition indexOf (s needle : string) : Z := indexOf_from needle s 0.

(** [Array.prototype.join] on an array of strings. *)
Definition join (sep : string) (parts : list string) : string :=
  String.concat sep parts.

(** *** What the widgets ask of the platform *)

(** The shadow root of <data-table> only ever holds one of two markups:
    the empty string, or the template with the <style> import and the
    empty <table id="data-table">. *)
Inductive Markup : Type :=
  | Blank
  | TableSkeleton.

Record Column : Type := { data : string; title : string }.

Record AjaxSource : Type := { url : string; type : string }.

Record DataTableOptions : Type := {
  processing : bool;
  serverSide : bool;
  ajax : AjaxSource;
  columns : list Column;
  searchDelay : Z
}.

Inductive LogArg : Type :=
  | LogValue (v : JsValue)
  | LogAttr (a : option string)
  | LogElement (node : nat).

(** The calls a handler makes on the platform, in order.  [Focus] and [Blur]
    are the calls [textarea.focus({preventScroll})] and [textarea.blur()]
    themselves; a listener the browser runs in answer to them (the [focus]
    listener of the text box) is an operation of its own and its calls are
    not part of the caller's trace. *)
Inductive Effect : Type :=
  | ConsoleLog (args : list LogArg)
  | SetInnerHTML (m : Markup)
  | Ajax (request_url method : string) (captured_serverUrl : string)
  | DataTableInit (target_found : bool) (options : DataTableOptions)
  | Alert (message : string)
  | Emit (event : JsValue) (payload : JsValue)
  | ScrollIntoView (node : nat) (behavior : string)
  | PreventDefault
  | Focus (preventScroll : bool)
  | Blur.

(** The messages sent over the socket by a run, in order. *)
Definition emitted (t : list Effect) : list (JsValue * JsValue) :=
  omap (fun e => match e with
                 | Emit event payload => Some (event, payload)
                 | _ => None
                 end) t.

(** The messages of the alerts raised by a run, in order. *)
Definition alerts (t : list Effect) : list string :=
  omap (fun e => match e with
                 | Alert message => Some message
                 | _ => None
                 end) t.

(** *** The monad *)

Inductive Completion (A : Type) : Type :=
  | Normal (a : A)
  | Throw (e : Error).
Arguments Normal {A} a.
Arguments Throw {A} e.

Record Outcome (S A : Type) : Type := {
  completion : Completion A;
  final : S;
  trace : list Effect
}.
Arguments completion {S A} _.
Arguments final {S A} _.
Arguments trace {S A} _.

Definition M (S A : Type) : Type := S -> Outcome S A.

Definition ret {S A} (a : A) : M S A :=
  fun s => {| completion := Normal a; final := s; trace := [] |}.

Definition bind {S A B} (m : M S A) (k : A -> M S B) : M S B :=
  fun s =>
    let o := m s in
    match completion o with
    | Normal a =>
        let o' := k a (final o) in
        {| completion := completion o'; final := final o';
           trace := (trace o ++ trace o')%list |}
    | Throw e =>
        {| completion := Throw e; final := final o; trace := trace o |}
    end.

Definition throw {S A} (e : Error) : M S A :=
  fun s => {| completion := Throw e; final := s; trace := [] |}.

Definition read {S} : M S S :=
  fun s => {| completion := Normal s; final := s; trace := [] |}.

Definition write {S} (s' : S) : M S unit :=
  fun _ => {| completion := Normal tt; final := s'; trace := [] |}.

Definition perform {S} (e : Effect) : M S unit :=
  fun s => {| completion := Normal tt; final := s; trace := [e] |}.

Definition lift {S A} (r : Error + A) : M S A :=
  match r with
  | inl e => throw e
  | inr a => ret a
  end.

Definition when {S} (b : bool) (m : M S unit) : M S unit :=
  if b then m else ret tt.

(** Run a handler on a component of a larger state. *)
Definition zoom {S T A} (get : S -> T) (set : T -> S -> S) (m : M T A) : M S A :=
  fun s =>
    let o := m (get s) in
    {| completion := completion o; final := set (final o) s; trace := trace o |}.

(** An outcome preceded by one more platform call. *)
Definition after_effect {S A} (e : Effect) (o : Outcome S A) : Outcome S A :=
  {| completion := completion o; final := final o; trace := e :: trace o |}.

(** A computation that leaves the state as it found it, whether it
    returns or throws. *)
Definition keeps_state {S A} (m : M S A) : Prop :=
  forall s, final (m s) = s.

(** A computation that raises no alert. *)
Definition silent {S A} (m : M S A) : Prop :=
  forall s, alerts (trace (m s)) = [].

End Js.

Import Js.

Declare Scope js_scope.
Delimit Scope js_scope with js.
Notation "x <- m ;; k" := (bind m (fun x => k))
  (at level 20, m at level 99, k at level 200, only parsing) : js_scope.
Notation "m ;; k" := (bind m (fun _ => k))
  (at level 100, k at level 200, right associativity, only parsing) : js_scope.
Local Open Scope js_scope.

(** ** Custom elements

  An element instance is its attribute store plus the fields its class
  adds.  The browser owns the attribute store: [setAttribute] and
  [removeAttribute] update it first and then notify the element, and only
  for attributes the class observes. *)

Module Dom.

Record Element (F : Type) : Type := {
  attributes : gmap string string;
  fields : F
}.
Arguments attributes {F} _.
Arguments fields {F} _.

Definition getAttribute {F} (name : string) : M (Element F) (option string) :=
  el <- read ;; ret (attributes el !! name).

Definition get_fields {F} : M (Element F) F :=
  el <- read ;; ret (fields el).

Definition set_fields {F} (f : F) : M (Element F) unit :=
  el <- read ;; write {| attributes := attributes el; fields := f |}.

Definition store_attribute {F} (name : string) (v : option string) : M (Element F) unit :=
  el <- read ;;
  write {| attributes := match v with
                         | Some s => <[name := s]> (attributes el)
                         | None => delete name (attributes el)
                         end;
           fields := fields el |}.

Class CustomElement (F : Type) : Type := {
  observedAttributes : list string;
  attributeChangedCallback : string -> option string -> option string -> M (Element F) unit;
  connectedCallback : M (Element F) unit
}.

Definition notify {F} `{CustomElement F}
    (name : string) (oldValue newValue : option string) : M (Element F) unit :=
  when (bool_decide (name ∈ observedAttributes))
       (attributeChangedCallback name oldValue newValue).

Definition setAttribute {F} `{CustomElement F} (name value : string) : M (Element F) unit :=
  oldValue <- getAttribute name ;;
  store_attribute name (Some value) ;;
  notify name oldValue (Some value).

Definition removeAttribute {F} `{CustomElement F} (name : string) : M (Element F) unit :=
  oldValue <- getAttribute name ;;
  match oldValue with
  | None => ret tt
  | Some _ => store_attribute name None ;; notify name oldValue None
  end.

(** *** The light DOM of the page

    A node of the document: its identity (what [===] compares), its [id]
    attribute, its class list, its [content] property (the getter of
    <textarea-wrapper>; [undefined] on other elements) and its children in
    document order. *)
#[warnings="-register-all"] Inductive Node : Type :=
  | El (node : nat) (id : option string) (classList : list string)
       (content : JsValue) (children : list Node).

Definition node_of (n : Node) : nat :=
  match n with El i _ _ _ _ => i end.

Definition id_of (n : Node) : option string :=
  match n with El _ i _ _ _ => i end.

Definition classList_of (n : Node) : list string :=
  match n with El _ _ c _ _ => c end.

Definition content_of (n : Node) : JsValue :=
  match n with El _ _ _ c _ => c end.

(** First node in document order (the node, then its children left to
    right, depth first) that satisfies [p]. *)
Fixpoint find_first (p : Node -> bool) (n : Node) : option Node :=
  if p n then Some n
  else match n with
       | El _ _ _ _ kids =>
           (fix among (l : list Node) : option Node :=
              match l with
              | [] => None
              | k :: rest =>
                  match find_first p k with
                  | Some hit => Some hit
                  | None => among rest
                  end
              end) kids
       end.

Definition getElementById (doc : Node) (i : string) : option Node :=
  find_first (fun n => bool_decide (id_of n = Some i)) doc.

(** [querySelector('.' + cls)]. *)
Definition querySelector_class (doc : Node) (cls : string) : option Node :=
  find_first (fun n => bool_decide (cls ∈ classList_of n)) doc.

(** *** Built-ins and third-party code the widgets call

    Not part of the repository, so taken as given:
    - [JSON_parse]: [JSON.parse], [None] when it throws SyntaxError;
    - [ToString]: the conversion a template literal applies to a value;
    - [morphdom d target data]: the document [d] after
      [morphdom(target, data, {childrenOnly: true})], and whether the call
      returned or threw.  Callbacks that the patch triggers on custom
      elements of the page are separate operations of those elements. *)
Class Platform : Type := {
  JSON_parse : string -> option JsValue;
  ToString : JsValue -> string;
  morphdom : Node -> option Node -> string -> Completion unit * Node
}.

Definition parse `{Platform} {S} (text : string) : M S JsValue :=
  match JSON_parse text with
  | Some v => ret v
  | None => throw SyntaxError
  end.

End Dom.

Import Dom.

(** ** The remote table widget: class DataTable *)

Module DataTable.

(** The only state the class adds is its shadow root, created empty by the
    constructor's [attachShadow]. *)
Record Fields : Type := { shadowRoot : Markup }.

Definition constructor : Fields := {| shadowRoot := Blank |}.

Definition set_innerHTML (m : Markup) : M (Element Fields) unit :=
  set_fields {| shadowRoot := m |} ;;
  perform (SetInnerHTML m).

(** [this.shadowRoot.getElementById('data-table')] finds the table exactly
    when the template is in place. *)
Definition table_in (f : Fields) : bool :=
  match shadowRoot f with
  | TableSkeleton => true
  | Blank => false
  end.

Definition has_table : M (Element Fields) bool :=
  f <- get_fields ;;
  ret (table_in f).

(** The [success] closure of the column request; [serverUrl] is the
    variable it captured when the request was made. *)
Definition success (serverUrl : string) (columns : list string) : M (Element Fields) unit :=
  let dtColumns := map (fun column => {| data := column; title := column |}) columns in
  target <- has_table ;;
  perform (DataTableInit target
             {| processing := true;
                serverSide := true;
                ajax := {| url := serverUrl; type := "POST" |};
                columns := dtColumns;
                searchDelay := 500 |}).

(** The [error] closure: of [(xhr, status, error)] only [error], the
    text of the failure, is used. *)
Definition error (xhr : JsValue) (status error : string) : M (Element Fields) unit :=
  perform (Alert ("Failed to fetch columns: " ++ error)).

(** The [ready] callback is run in line: the document is loaded by the
    time an attribute of a live element changes.  A removed attribute
    reads as null, and [null.indexOf] throws. *)
Definition initializeTable : M (Element Fields) unit :=
  serverUrl <- getAttribute "server-url" ;;
  set_innerHTML TableSkeleton ;;
  match serverUrl with
  | None => throw TypeError
  | Some serverUrl =>
      perform (Ajax ((serverUrl ++ (if (indexOf serverUrl "?" =? -1)%Z then "?" else "&"))
                       ++ "get-columns=true")
                    "POST" serverUrl)
  end.

Definition attributeChangedCallback
    (name : string) (oldValue newValue : option string) : M (Element Fields) unit :=
  perform (ConsoleLog [LogValue (JStr name); LogAttr oldValue; LogAttr newValue]) ;;
  when (bool_decide (name = "server-url") && strict_neq oldValue newValue)
       (set_innerHTML Blank ;;
        initializeTable).

Definition connectedCallback : M (Element Fields) unit := ret tt.

#[export] Instance custom_element : CustomElement Fields := {|
  Dom.observedAttributes := ["server-url"];
  Dom.attributeChangedCallback := attributeChangedCallback;
  Dom.connectedCallback := connectedCallback
|}.

(** The URL the column names are requested from. *)
Definition columns_url (serverUrl : string) : string :=
  (serverUrl ++ (if (indexOf serverUrl "?" =? -1)%Z then "?" else "&")) ++ "get-columns=true".

(** A URL has a query string when a '?' occurs in it. *)
Definition has_query (serverUrl : string) : Prop :=
  exists before after, serverUrl = before ++ "?" ++ after.

End DataTable.

(** ** The live document widget: static/notebook.js *)

Module Notebook.

(** The script's globals and the document it works on. *)
Record Page : Type := {
  document : Node;
  lastScrolledTo : option nat;
  focusedCellId : JsValue
}.

Definition initial (doc : Node) : Page :=
  {| document := doc; lastScrolledTo := None; focusedCellId := JNull |}.

Record KeyboardEvent : Type := {
  key : string;
  ctrlKey : bool;
  altKey : bool;
  target_is_body : bool
}.

Definition emit {S} (event : string) (payload : JsValue) : M S unit :=
  perform (Emit (JStr event) payload).

Definition set_document (d : Node) : M Page unit :=
  p <- read ;;
  write {| document := d; lastScrolledTo := lastScrolledTo p;
           focusedCellId := focusedCellId p |}.

Definition set_lastScrolledTo (n : option nat) : M Page unit :=
  p <- read ;;
  write {| document := document p; lastScrolledTo := n;
           focusedCellId := focusedCellId p |}.

Definition call_morphdom `{Platform} (target : option Node) (data : string) : M Page unit :=
  p <- read ;;
  let '(c, d) := morphdom (document p) target data in
  set_document d ;;
  match c with
  | Normal _ => ret tt
  | Throw e => throw e
  end.

(** [socket.on('update', ...)] *)
Definition on_update `{Platform} (data : string) : M Page unit :=
  p <- read ;;
  let contentElement := getElementById (document p) "content" in
  call_morphdom contentElement data ;;
  p <- read ;;
  let scrollTo := querySelector_class (document p) "scroll-to" in
  match scrollTo with
  | None => ret tt
  | Some scrollTo =>
      when (negb (bool_decide (Some (node_of scrollTo) = lastScrolledTo p)))
           (perform (ConsoleLog [LogValue (JStr "scroll"); LogElement (node_of scrollTo)]) ;;
            perform (ScrollIntoView (node_of scrollTo) "smooth") ;;
            set_lastScrolledTo (Some (node_of scrollTo)))
  end.

Definition saveCode `{Platform} (cellId : JsValue) : M Page unit :=
  p <- read ;;
  match getElementById (document p) ("code_" ++ ToString cellId) with
  | None => throw TypeError
  | Some cell =>
      let codeContent := content_of cell in
      emit "save_code" (JObj {[ "cell_id" := cellId; "content" := codeContent ]})
  end.

Definition runCell `{Platform} (cellId : JsValue) : M Page unit :=
  saveCode cellId ;;
  emit "run_cell" (JObj {[ "cell_id" := cellId ]}).

(** [socket.on('code_saved', ...)] *)
Definition on_code_saved `{Platform} (data : JsValue) : M Page unit :=
  cell_id <- lift (get_prop data "cell_id") ;;
  perform (ConsoleLog [LogValue (JStr ("Code saved for cell " ++ ToString cell_id))]).

Definition getKeyCombo (event : KeyboardEvent) : string :=
  let combo : list string := [] in
  let combo := if ctrlKey event then (combo ++ ["Ctrl"])%list else combo in
  let combo := if altKey event then (combo ++ ["Alt"])%list else combo in
  let combo := (combo ++ [key event])%list in
  join "+" combo.

(** [document.addEventListener('keydown', ...)] *)
Definition on_keydown (event : KeyboardEvent) : M Page unit :=
  perform (ConsoleLog [LogValue (JStr (key event))]) ;;
  let keyCombo := getKeyCombo event in
  perform (ConsoleLog [LogValue (JStr keyCombo)]) ;;
  emit "keydown" (JObj {[ "key" := JStr keyCombo ]}) ;;
  when (target_is_body event) (perform PreventDefault).

(** [socket.on('connect', ...)] *)
Definition on_connect : M Page unit :=
  emit "loaded" (JObj ∅).

(** The event loop delivers one message after the other; an exception
    that escapes a handler is reported by the platform and does not stop
    later deliveries. *)
Fixpoint deliver {S A} (handler : A -> M S unit) (messages : list A) (s : S)
    : S * list Effect :=
  match messages with
  | [] => (s, [])
  | m :: rest =>
      let o := handler m s in
      let '(s', t) := deliver handler rest (final o) in
      (s', (trace o ++ t)%list)
  end.

(** The nodes scrolled into view by a run, in order. *)
Definition scrolled (t : list Effect) : list nat :=
  omap (fun e => match e with
                 | ScrollIntoView n _ => Some n
                 | _ => None
                 end) t.

(** A scroll log in which no entry repeats the one before it, [prev]
    being what was scrolled to last before the log starts. *)
Fixpoint no_repeat (prev : option nat) (log : list nat) : Prop :=
  match log with
  | [] => True
  | n :: rest => Some n <> prev /\ no_repeat (Some n) rest
  end.

(** The modifier prefixes of a key combination. *)
Definition modifiers (event : KeyboardEvent) : list string :=
  ((if ctrlKey event then ["Ctrl"] else []) ++ (if altKey event then ["Alt"] else []))%list.

End Notebook.

(** ** The tracked text box: class TextareaWrapper *)

Module TextareaWrapper.

(** The <textarea> inside the shadow root: [value] is the text the
    control reports (what [textarea.value] reads), and [dataset] its data
    attributes. *)
Record Textarea : Type := {
  value : string;
  dataset : gmap string string
}.

(** What the control reports for a text assigned to it: every CR LF pair
    and every remaining CR is a single LF. *)
Fixpoint normalize_newlines (s : string) : string :=
  match s with
  | EmptyString => EmptyString
  | String c rest =>
      if Ascii.eqb c "013"
      then match rest with
           | EmptyString => String "010" EmptyString
           | String c' rest' =>
               if Ascii.eqb c' "010"
               then String "010" (normalize_newlines rest')
               else String "010" (normalize_newlines rest)
           end
      else String c (normalize_newlines rest)
  end.

Record Fields : Type := {
  _textarea : Textarea;
  _originalContent : option string;
  _edited : bool
}.

(** [textarea.value = v]: the setter turns null into the empty string,
    and the control reports the text with its newlines normalized. *)
Definition set_value (v : option string) : M (Element Fields) unit :=
  f <- get_fields ;;
  set_fields {| _textarea := {| value := normalize_newlines (default "" v);
                                dataset := dataset (_textarea f) |};
                _originalContent := _originalContent f;
                _edited := _edited f |}.

(** The user's edit: the control now reports [typed].  Nothing is
    assumed of [typed]; the texts a browser can report (no CR) are among
    them. *)
Definition edit_text (typed : string) : M (Element Fields) unit :=
  f <- get_fields ;;
  set_fields {| _textarea := {| value := typed;
                                dataset := dataset (_textarea f) |};
                _originalContent := _originalContent f;
                _edited := _edited f |}.

Definition set_originalContent (v : option string) : M (Element Fields) unit :=
  f <- get_fields ;;
  set_fields {| _textarea := _textarea f;
                _originalContent := v;
                _edited := _edited f |}.

(** A boolean stored in [dataset] is stored as its string. *)
Definition bool_to_string (b : bool) : string :=
  if b then "true" else "false".

Definition _setEdited (edited : bool) : M (Element Fields) unit :=
  f <- get_fields ;;
  set_fields {| _textarea := {| value := value (_textarea f);
                                dataset := <["edited" := bool_to_string edited]>
                                             (dataset (_textarea f)) |};
                _originalContent := _originalContent f;
                _edited := edited |}.

Definition _checkNoLongerEdited : M (Element Fields) unit :=
  f <- get_fields ;;
  when (loose_eq (value (_textarea f)) (_originalContent f))
       (perform (ConsoleLog [LogValue (JStr "no longer considered edited")]) ;;
        _setEdited false).

(** [get content()] *)
Definition content : M (Element Fields) string :=
  f <- get_fields ;;
  ret (value (_textarea f)).

(** The fields as the constructor leaves them: an empty text box,
    [_originalContent = ''], then [_setEdited(false)]. *)
Definition constructor : Fields :=
  {| _textarea := {| value := ""; dataset := {[ "edited" := "false" ]} |};
     _originalContent := Some "";
     _edited := false |}.

(** The [input] listener. *)
Definition on_input `{Platform} : M (Element Fields) unit :=
  _setEdited true ;;
  _checkNoLongerEdited ;;
  modifyEvent <- getAttribute "modify-event" ;;
  when (truthy modifyEvent)
       (parsedEvent <- parse (default "" modifyEvent) ;;
        params <- lift (get_prop parsedEvent "params") ;;
        text <- content ;;
        params <- lift (set_prop params "content" (JStr text)) ;;
        name <- lift (get_prop parsedEvent "name") ;;
        perform (Emit name params)).

(** The [focus] listener. *)
Definition on_focus `{Platform} : M (Element Fields) unit :=
  focusEvent <- getAttribute "focus-event" ;;
  when (truthy focusEvent)
       (parsedEvent <- parse (default "" focusEvent) ;;
        name <- lift (get_prop parsedEvent "name") ;;
        params <- lift (get_prop parsedEvent "params") ;;
        perform (Emit name params)).

(** The user changes the text, the control then reports [typed], and the
    browser fires [input]. *)
Definition input_event `{Platform} (typed : string) : M (Element Fields) unit :=
  edit_text typed ;;
  on_input.

Definition attributeChangedCallback
    (name : string) (oldValue newValue : option string) : M (Element Fields) unit :=
  when (bool_decide (name = "text"))
       (set_originalContent newValue ;;
        f <- get_fields ;;
        when (negb (_edited f)) (set_value newValue) ;;
        _checkNoLongerEdited) ;;
  when (bool_decide (name = "focus"))
       (if truthy newValue
        then perform (Focus true)
        else perform Blur).

(** [this.getAttribute('text') || ''] *)
Definition connectedCallback : M (Element Fields) unit :=
  text <- getAttribute "text" ;;
  set_originalContent (Some (if truthy text then default "" text else "")) ;;
  f <- get_fields ;;
  set_value (_originalContent f).

#[export] Instance custom_element : CustomElement Fields := {|
  Dom.observedAttributes := ["text"; "focus"];
  Dom.attributeChangedCallback := attributeChangedCallback;
  Dom.connectedCallback := connectedCallback
|}.

(** The text differs from the value last given through the [text]
    attribute (null when the attribute was removed). *)
Definition diverged (f : Fields) : Prop :=
  Some (value (_textarea f)) <> _originalContent f.

End TextareaWrapper.

(** ** A page with one instance of each widget *)

Module Page.

Record World : Type := {
  table : Element DataTable.Fields;
  notebook : Notebook.Page;
  textarea : Element TextareaWrapper.Fields
}.

Definition on_table {A} (m : M (Element DataTable.Fields) A) : M World A :=
  zoom table
       (fun t w => {| table := t; notebook := notebook w; textarea := textarea w |}) m.

Definition on_notebook {A} (m : M Notebook.Page A) : M World A :=
  zoom notebook
       (fun n w => {| table := table w; notebook := n; textarea := textarea w |}) m.

Definition on_textarea {A} (m : M (Element TextareaWrapper.Fields) A) : M World A :=
  zoom textarea
       (fun t w => {| table := table w; notebook := notebook w; textarea := t |}) m.

(** Every function and listener of the three source files. *)
Inductive Operation : Type :=
  | TableConstructor
  | TableConnectedCallback
  | TableAttributeChangedCallback (name : string) (oldValue newValue : option string)
  | TableInitializeTable
  | TableSuccess (serverUrl : string) (columns : list string)
  | TableError (xhr : JsValue) (status error : string)
  | NotebookUpdate (data : string)
  | NotebookRunCell (cellId : JsValue)
  | NotebookSaveCode (cellId : JsValue)
  | NotebookCodeSaved (data : JsValue)
  | NotebookKeydown (event : Notebook.KeyboardEvent)
  | NotebookConnect
  | TextareaConstructor
  | TextareaInput (typed : string)
  | TextareaFocus
  | TextareaSetEdited (edited : bool)
  | TextareaCheckNoLongerEdited
  | TextareaAttributeChangedCallback (name : string) (oldValue newValue : option string)
  | TextareaConnectedCallback
  | TextareaContent.

Definition step `{Platform} (op : Operation) : M World unit :=
  match op with
  | TableConstructor => on_table (set_fields DataTable.constructor)
  | TableConnectedCallback => on_table DataTable.connectedCallback
  | TableAttributeChangedCallback name oldValue newValue =>
      on_table (DataTable.attributeChangedCallback name oldValue newValue)
  | TableInitializeTable => on_table DataTable.initializeTable
  | TableSuccess serverUrl columns => on_table (DataTable.success serverUrl columns)
  | TableError xhr status error => on_table (DataTable.error xhr status error)
  | NotebookUpdate data => on_notebook (Notebook.on_update data)
  | NotebookRunCell cellId => on_notebook (Notebook.runCell cellId)
  | NotebookSaveCode cellId => on_notebook (Notebook.saveCode cellId)
  | NotebookCodeSaved data => on_notebook (Notebook.on_code_saved data)
  | NotebookKeydown event => on_notebook (Notebook.on_keydown event)
  | NotebookConnect => on_notebook Notebook.on_connect
  | TextareaConstructor => on_textarea (set_fields TextareaWrapper.constructor)
  | TextareaInput typed => on_textarea (TextareaWrapper.input_event typed)
  | TextareaFocus => on_textarea TextareaWrapper.on_focus
  | TextareaSetEdited edited => on_textarea (TextareaWrapper._setEdited edited)
  | TextareaCheckNoLongerEdited => on_textarea TextareaWrapper._checkNoLongerEdited
  | TextareaAttributeChangedCallback name oldValue newValue =>
      on_textarea (TextareaWrapper.attributeChangedCallback name oldValue newValue)
  | TextareaConnectedCallback => on_textarea TextareaWrapper.connectedCallback
  | TextareaContent => on_textarea (TextareaWrapper.content ;; ret tt)
  end.

End Page.

(** ** A concrete platform and page, to run the handlers on *)

Module Sample.

Definition quote : string := String "034"%char EmptyString.

(** The text [{"name":"edit","params":{"cell":"c1"}}]. *)
Definition event_attribute : string :=
  "{" ++ quote ++ "name" ++ quote ++ ":" ++ quote ++ "edit" ++ quote ++ ","
      ++ quote ++ "params" ++ quote ++ ":{" ++ quote ++ "cell" ++ quote ++ ":"
      ++ quote ++ "c1" ++ quote ++ "}}".

Definition event_value : JsValue :=
  JObj {[ "name" := JStr "edit"; "params" := JObj {[ "cell" := JStr "c1" ]} ]}.

(** The fragment the server sends for the two cells of [doc] below, with
    the marker class on the cell named [marked]. *)
Definition fragment (marked : string) : string :=
  "<textarea-wrapper id='code_a'"
    ++ (if bool_decide (marked = "code_a") then " class='scroll-to'" else "")
    ++ "></textarea-wrapper><textarea-wrapper id='code_b'"
    ++ (if bool_decide (marked = "code_b") then " class='scroll-to'" else "")
    ++ "></textarea-wrapper>".

Definition marked_by (data : string) : option string :=
  if bool_decide (data = fragment "code_a") then Some "code_a"
  else if bool_decide (data = fragment "code_b") then Some "code_b"
  else None.

(** What a structural patch does with such a fragment: the children of
    [target] keep their identity, and the class is on the one the
    fragment marks and on no other. *)
Definition mark (marked : option string) (n : Node) : Node :=
  match n with
  | El i ident _ c kids =>
      let here := match marked with
                  | Some m => bool_decide (ident = Some m)
                  | None => false
                  end in
      El i ident (if here then ["scroll-to"] else []) c kids
  end.

Definition move_marker (d : Node) (target : option Node) (data : string)
    : Completion unit * Node :=
  match target, d with
  | None, _ => (Throw TypeError, d)
  | Some _, El i ident cls c kids =>
      (Normal tt,
       El i ident cls c
          (map (fun k => match k with
                         | El j (Some "content") kcls kc cells =>
                             El j (Some "content") kcls kc
                                (map (mark (marked_by data)) cells)
                         | other => other
                         end) kids))
  end.

#[export] Instance platform : Platform := {|
  JSON_parse text := if bool_decide (text = event_attribute) then Some event_value else None;
  ToString v := match v with JStr s => s | _ => "" end;
  morphdom := move_marker
|}.

(** <body><div id="content"><textarea-wrapper id="code_a">,
    <textarea-wrapper id="code_b"></div></body> *)
Definition doc : Node :=
  El 0 None [] JUndefined
     [El 1 (Some "content") [] JUndefined
         [El 2 (Some "code_a") [] (JStr "print(1)") [];
          El 3 (Some "code_b") [] (JStr "print(2)") []]].

(** The marker goes to the first cell, to the second, and back. *)
Definition there_and_back : list string :=
  [fragment "code_a"; fragment "code_b"; fragment "code_a"].

(** The marker stays on the first cell. *)
Definition staying : list string :=
  [fragment "code_a"; fragment "code_a"; fragment "code_a"].

Definition fresh_textarea : Element TextareaWrapper.Fields :=
  {| attributes := ∅; fields := TextareaWrapper.constructor |}.

End Sample.

(** ** Readings of states and traces *)

Module Observe.

(** The URLs requested through [$.ajax] during a run, in order. *)
Definition requested (t : list Effect) : list string :=
  omap (fun e => match e with
                 | Ajax request_url _ _ => Some request_url
                 | _ => None
                 end) t.

(** How many times the shadow root was emptied during a run. *)
Definition clearings (t : list Effect) : nat :=
  length (omap (fun e => match e with
                         | SetInnerHTML Blank => Some tt
                         | _ => None
                         end) t).

(** The values of a sequence that differ from the value just before them,
    [prev] being the value before the first. *)
Fixpoint changes (prev : option string) (values : list string) : list string :=
  match values with
  | [] => []
  | v :: rest =>
      ((if bool_decide (prev = Some v) then [] else [v]) ++ changes (Some v) rest)%list
  end.

(** The page assigns the values, one after the other, to [server-url]. *)
Definition set_server_urls (values : list string) (el : Element DataTable.Fields)
    : Element DataTable.Fields * list Effect :=
  Notebook.deliver
    (fun v => setAttribute (H := DataTable.custom_element) "server-url" v) values el.

(** The node scrolled to last according to a scroll log, [initially]
    being the one from before the log. *)
Definition last_scrolled (initially : option nat) (log : list nat) : option nat :=
  foldl (fun _ n => Some n) initially log.

(** A key name that itself begins like a modifier prefix. *)
Definition modifier_like (k : string) : bool :=
  String.prefix "Ctrl+" k || String.prefix "Alt+" k.

(** [data-edited] on the text box says what [_edited] says. *)
Definition flag_mirrored (f : TextareaWrapper.Fields) : Prop :=
  TextareaWrapper.dataset (TextareaWrapper._textarea f) !! "edited"
  = Some (TextareaWrapper.bool_to_string (TextareaWrapper._edited f)).

Definition mirrored (el : Element TextareaWrapper.Fields) : Prop :=
  flag_mirrored (fields el).

(** The shadow root of the table holds the table markup. *)
Definition rendered (el : Element DataTable.Fields) : Prop :=
  DataTable.table_in (fields el) = true.

(** A computation that keeps a property of the state, whether it returns
    or throws. *)
Definition preserves {S A} (P : S -> Prop) (m : M S A) : Prop :=
  forall s, P s -> P (final (m s)).

(** The two lines "a" and "b" separated by CR LF, as a server may send
    them in a [text] attribute. *)
Definition two_lines_crlf : string :=
  String "a" (String "013" (String "010" (String "b" EmptyString))).

(** The string holds a carriage return. *)
Fixpoint has_cr (s : string) : bool :=
  match s with
  | EmptyString => false
  | String c rest => Ascii.eqb c "013" || has_cr rest
  end.

End Observe.

(** ** A second platform, for event descriptors without parameters *)

Module BareSample.

(** The text [{"name":"seen"}]. *)
Definition event_attribute : string :=
  "{" ++ Sample.quote ++ "name" ++ Sample.quote ++ ":"
      ++ Sample.quote ++ "seen" ++ Sample.quote ++ "}".

Definition event_value : JsValue :=
  JObj {[ "name" := JStr "seen" ]}.

#[export] Instance platform : Platform := {|
  JSON_parse text := if bool_decide (text = event_attribute) then Some event_value else None;
  ToString v := match v with JStr s => s | _ => "" end;
  morphdom := Sample.move_marker
|}.

End BareSample.

(** * Properties *)

(** Unfold the monad down to records; lookups, string operations and
    decisions on symbolic values are left in place for rewriting. *)
Ltac js_run :=
  cbv [bind ret read write perform throw lift when zoom parse
       completion final trace
       Dom.getAttribute Dom.get_fields Dom.set_fields Dom.store_attribute
       attributes fields app].

(** ** Laws of the handler monad *)

Module JsFacts.

Section Bind.
Context {S A B : Type} (m : M S A) (k : A -> M S B).

Lemma final_bind (s : S) :
  final (bind m k s) =
    match completion (m s) with
    | Normal a => final (k a (final (m s)))
    | Throw _ => final (m s)
    end.
Proof. unfold bind. destruct (completion (m s)); reflexivity. Qed.

Lemma trace_bind (s : S) :
  trace (bind m k s) =
    match completion (m s) with
    | Normal a => (trace (m s) ++ trace (k a (final (m s))))%list
    | Throw _ => trace (m s)
    end.
Proof. unfold bind. destruct (completion (m s)); reflexivity. Qed.

Lemma completion_bind (s : S) :
  completion (bind m k s) =
    match completion (m s) with
    | Normal a => completion (k a (final (m s)))
    | Throw e => Throw e
    end.
Proof. unfold bind. destruct (completion (m s)); reflexivity. Qed.

Lemma keeps_state_bind :
  keeps_state m -> (forall a, keeps_state (k a)) -> keeps_state (bind m k).
Proof.
  intros Hm Hk s. rewrite final_bind.
  destruct (completion (m s)); rewrite Hm; [apply Hk | reflexivity].
Qed.

Lemma silent_bind :
  silent m -> (forall a, silent (k a)) -> silent (bind m k).
Proof.
  intros Hm Hk s. rewrite trace_bind.
  destruct (completion (m s)); [|apply Hm].
  unfold alerts. rewrite omap_app. fold (alerts (trace (m s))).
  rewrite Hm. apply Hk.
Qed.

(** What follows a state-keeping tail is the state its head left. *)
Lemma final_bind_keeps (s : S) :
  (forall a, keeps_state (k a)) -> final (bind m k s) = final (m s).
Proof.
  intros Hk. rewrite final_bind. destruct (completion (m s)); [apply Hk | reflexivity].
Qed.

End Bind.

Lemma outcome_eta {S A} (o : Outcome S A) :
  {| completion := completion o; final := final o; trace := trace o |} = o.
Proof. destruct o. reflexivity. Qed.

Section Steps.
Context {S A B : Type}.

Lemma bind_ret (a : A) (k : A -> M S B) (s : S) : bind (ret a) k s = k a s.
Proof. unfold bind, ret. cbn. apply outcome_eta. Qed.

Lemma bind_throw (e : Error) (k : A -> M S B) (s : S) :
  bind (throw e) k s = throw e s.
Proof. reflexivity. Qed.

Lemma bind_read (k : S -> M S B) (s : S) : bind read k s = k s s.
Proof. unfold bind, read. cbn. apply outcome_eta. Qed.

Lemma bind_write (s' : S) (k : unit -> M S B) (s : S) : bind (write s') k s = k tt s'.
Proof. unfold bind, write. cbn. apply outcome_eta. Qed.

Lemma bind_perform (e : Effect) (k : unit -> M S B) (s : S) :
  bind (perform e) k s = after_effect e (k tt s).
Proof. reflexivity. Qed.

Lemma bind_lift_inr (a : A) (k : A -> M S B) (s : S) : bind (lift (inr a)) k s = k a s.
Proof. apply bind_ret. Qed.

Lemma bind_lift_inl (e : Error) (k : A -> M S B) (s : S) :
  bind (lift (inl e)) k s = throw e s.
Proof. reflexivity. Qed.

Lemma bind_assoc {C} (m : M S A) (k : A -> M S B) (k' : B -> M S C) (s : S) :
  bind (bind m k) k' s = bind m (fun a => bind (k a) k') s.
Proof.
  unfold bind. destruct (m s) as [[a|e] s1 t1]; cbn; [|reflexivity].
  destruct (k a s1) as [[b|e] s2 t2]; cbn; [|reflexivity].
  destruct (k' b s2) as [c s3 t3]; cbn. rewrite app_assoc. reflexivity.
Qed.

End Steps.

Section Leaves.
Context {S : Type}.

Lemma keeps_state_ret {A} (a : A) : keeps_state (ret (S := S) a).
Proof. intros s. reflexivity. Qed.

Lemma keeps_state_throw {A} (e : Error) : keeps_state (throw (S := S) (A := A) e).
Proof. intros s. reflexivity. Qed.

Lemma keeps_state_read : keeps_state (read (S := S)).
Proof. intros s. reflexivity. Qed.

Lemma keeps_state_perform (e : Effect) : keeps_state (perform (S := S) e).
Proof. intros s. reflexivity. Qed.

Lemma keeps_state_lift {A} (r : Error + A) : keeps_state (lift (S := S) r).
Proof. destruct r; intros s; reflexivity. Qed.

Lemma keeps_state_when (b : bool) (m : M S unit) :
  keeps_state m -> keeps_state (when b m).
Proof. destruct b; [auto | intros _ s; reflexivity]. Qed.

Lemma keeps_state_parse `{Platform} (text : string) : keeps_state (parse (S := S) text).
Proof. unfold parse. destruct (JSON_parse text); intros s; reflexivity. Qed.

Lemma silent_ret {A} (a : A) : silent (ret (S := S) a).
Proof. intros s. reflexivity. Qed.

Lemma silent_throw {A} (e : Error) : silent (throw (S := S) (A := A) e).
Proof. intros s. reflexivity. Qed.

Lemma silent_read : silent (read (S := S)).
Proof. intros s. reflexivity. Qed.

Lemma silent_write (s' : S) : silent (write s').
Proof. intros s. reflexivity. Qed.

Lemma silent_lift {A} (r : Error + A) : silent (lift (S := S) r).
Proof. destruct r; intros s; reflexivity. Qed.

Lemma silent_when (b : bool) (m : M S unit) : silent m -> silent (when b m).
Proof. destruct b; [auto | intros _ s; reflexivity]. Qed.

Lemma silent_parse `{Platform} (text : string) : silent (parse (S := S) text).
Proof. unfold parse. destruct (JSON_parse text); intros s; reflexivity. Qed.

Lemma silent_perform (e : Effect) :
  (forall message, e <> Alert message) -> silent (perform (S := S) e).
Proof.
  intros He s. destruct e; try reflexivity. destruct (He message eq_refl).
Qed.

Lemma silent_zoom {T A} (get : S -> T) (set : T -> S -> S) (m : M T A) :
  silent m -> silent (zoom get set m).
Proof. intros Hm s. apply Hm. Qed.

End Leaves.

Lemma keeps_state_getAttribute {F} (name : string) :
  keeps_state (getAttribute (F := F) name).
Proof. intros s. reflexivity. Qed.

Lemma keeps_state_get_fields {F} : keeps_state (get_fields (F := F)).
Proof. intros s. reflexivity. Qed.

Lemma silent_getAttribute {F} (name : string) : silent (getAttribute (F := F) name).
Proof. intros s. reflexivity. Qed.

Lemma silent_get_fields {F} : silent (get_fields (F := F)).
Proof. intros s. reflexivity. Qed.

Lemma silent_set_fields {F} (f : F) : silent (set_fields f).
Proof. intros s. reflexivity. Qed.

End JsFacts.

Create HintDb keeps.
#[export] Hint Resolve
  JsFacts.keeps_state_ret JsFacts.keeps_state_throw
  JsFacts.keeps_state_read JsFacts.keeps_state_perform JsFacts.keeps_state_lift
  JsFacts.keeps_state_parse
  JsFacts.keeps_state_getAttribute JsFacts.keeps_state_get_fields : keeps.

Create HintDb silence.
#[export] Hint Resolve
  JsFacts.silent_ret JsFacts.silent_throw JsFacts.silent_read
  JsFacts.silent_write JsFacts.silent_lift JsFacts.silent_parse
  JsFacts.silent_getAttribute JsFacts.silent_get_fields
  JsFacts.silent_set_fields : silence.

(** Walk down a computation: binders and guards structurally, leaves from
    the hint database. *)
Ltac keeps :=
  repeat first
    [ progress cbv beta
    | match goal with |- forall _, _ => intro end
    | apply JsFacts.keeps_state_bind
    | apply JsFacts.keeps_state_when
    | solve [auto with keeps] ].

(** Run the head of a computation applied to a state, one primitive at a
    time. *)
Ltac js_step :=
  first
    [ rewrite JsFacts.bind_assoc
    | rewrite JsFacts.bind_ret
    | rewrite JsFacts.bind_read
    | rewrite JsFacts.bind_write
    | rewrite JsFacts.bind_perform
    | rewrite JsFacts.bind_throw
    | rewrite JsFacts.bind_lift_inr
    | rewrite JsFacts.bind_lift_inl
    | progress cbv [when] ];
  cbv beta iota.

Ltac js_steps := repeat js_step.

Ltac silence :=
  repeat first
    [ progress cbv beta
    | match goal with |- forall _, _ => intro end
    | apply JsFacts.silent_bind
    | apply JsFacts.silent_when
    | apply JsFacts.silent_zoom
    | solve [auto with silence]
    | solve [apply JsFacts.silent_perform; discriminate]
    | match goal with
      | |- silent (match ?x with _ => _ end) => destruct x
      end ].

(** ** Remote table *)

Module DataTableFacts.
Import DataTable.

Lemma has_query_cons (a : ascii) (s : string) :
  has_query (String a s) <-> a = "?"%char \/ has_query s.
Proof.
  split.
  - intros (before & after & E). destruct before as [|b before].
    + left. injection E as -> _. reflexivity.
    + right. exists before, after. injection E as _ ->. reflexivity.
  - intros [-> | (before & after & ->)].
    + exists "", s. reflexivity.
    + exists (String a before), after. reflexivity.
Qed.

Lemma has_query_empty : ~ has_query "".
Proof.
  intros (before & after & E). destruct before; discriminate E.
Qed.

Lemma has_query_dec (s : string) : {has_query s} + {~ has_query s}.
Proof.
  induction s as [|a s [IH | IH]].
  - right. apply has_query_empty.
  - left. apply has_query_cons. auto.
  - destruct (ascii_dec a "?") as [-> | Hne].
    + left. apply has_query_cons. auto.
    + right. intros [? | ?]%has_query_cons; contradiction.
Qed.

Lemma indexOf_from_question (s : string) (i : Z) :
  0 <= i ->
  (has_query s -> i <= indexOf_from "?" s i) /\
  (~ has_query s -> indexOf_from "?" s i = -1).
Proof.
  revert i. induction s as [|a s IH]; intros i Hi.
  - split; [intros H; destruct (has_query_empty H) | reflexivity].
  - cbn [indexOf_from String.prefix].
    destruct (ascii_dec "?" a) as [<- | Hne].
    + assert (String.prefix "" s = true) as -> by (destruct s; reflexivity).
      split; [lia | intros H; exfalso; apply H; apply has_query_cons; auto].
    + destruct (IH (i + 1) ltac:(lia)) as [IH1 IH2].
      split.
      * intros [E | H]%has_query_cons; [congruence | specialize (IH1 H); lia].
      * intros H. apply IH2. intros H'. apply H, has_query_cons. auto.
Qed.

Lemma indexOf_without_query (s : string) :
  ~ has_query s -> (indexOf s "?" =? -1)%Z = true.
Proof.
  intros H. unfold indexOf.
  destruct (indexOf_from_question s 0 ltac:(lia)) as [_ ->]; auto.
Qed.

Lemma indexOf_with_query (s : string) :
  has_query s -> (indexOf s "?" =? -1)%Z = false.
Proof.
  intros H. unfold indexOf.
  destruct (indexOf_from_question s 0 ltac:(lia)) as [H1 _].
  specialize (H1 H). apply Z.eqb_neq. lia.
Qed.

Lemma append_assoc (a b c : string) : (a ++ b) ++ c = a ++ (b ++ c).
Proof.
  induction a as [|x a IH]; [reflexivity|].
  cbv [String.append]. fold String.append. f_equal. exact IH.
Qed.

Lemma columns_url_without_query (serverUrl : string) :
  ~ has_query serverUrl -> columns_url serverUrl = serverUrl ++ "?get-columns=true".
Proof.
  intros H. unfold columns_url. rewrite (indexOf_without_query _ H).
  apply append_assoc.
Qed.

Lemma columns_url_with_query (serverUrl : string) :
  has_query serverUrl -> columns_url serverUrl = serverUrl ++ "&get-columns=true".
Proof.
  intros H. unfold columns_url. rewrite (indexOf_with_query _ H).
  apply append_assoc.
Qed.

Lemma initializeTable_run (el : Element Fields) (serverUrl : string) :
  attributes el !! "server-url" = Some serverUrl ->
  initializeTable el =
    {| completion := Normal tt;
       final := {| attributes := attributes el;
                   fields := {| shadowRoot := TableSkeleton |} |};
       trace := [SetInnerHTML TableSkeleton;
                 Ajax (columns_url serverUrl) "POST" serverUrl] |}.
Proof.
  intros H. unfold initializeTable, getAttribute, bind at 1. cbn.
  rewrite H. reflexivity.
Qed.

Lemma initializeTable_without_attribute (el : Element Fields) :
  attributes el !! "server-url" = None ->
  initializeTable el =
    {| completion := Throw TypeError;
       final := {| attributes := attributes el;
                   fields := {| shadowRoot := TableSkeleton |} |};
       trace := [SetInnerHTML TableSkeleton] |}.
Proof.
  intros H. unfold initializeTable, getAttribute, bind at 1. cbn.
  rewrite H. reflexivity.
Qed.

(** C8: the column names are requested by POST from the server URL with
    [?get-columns=true] appended when the URL has no '?', and with
    [&get-columns=true] appended when it has one. *)
Theorem column_request_url (el : Element Fields) (serverUrl : string) :
  attributes el !! "server-url" = Some serverUrl ->
  (~ has_query serverUrl ->
   trace (initializeTable el) =
     [SetInnerHTML TableSkeleton;
      Ajax (serverUrl ++ "?get-columns=true") "POST" serverUrl]) /\
  (has_query serverUrl ->
   trace (initializeTable el) =
     [SetInnerHTML TableSkeleton;
      Ajax (serverUrl ++ "&get-columns=true") "POST" serverUrl]).
Proof.
  intros H. rewrite (initializeTable_run el serverUrl H). cbn [trace].
  split; intros Hq.
  - rewrite (columns_url_without_query _ Hq). reflexivity.
  - rewrite (columns_url_with_query _ Hq). reflexivity.
Qed.

Lemma no_query_of_indexOf (s : string) :
  indexOf s "?" = -1 -> ~ has_query s.
Proof.
  intros E H. pose proof (indexOf_with_query s H) as Hb.
  rewrite E in Hb. discriminate Hb.
Qed.

Lemma column_request_url_witness :
  trace (initializeTable {| attributes := {[ "server-url" := "/rows" ]};
                            fields := constructor |}) =
    [SetInnerHTML TableSkeleton; Ajax "/rows?get-columns=true" "POST" "/rows"] /\
  trace (initializeTable {| attributes := {[ "server-url" := "/rows?run=3" ]};
                            fields := constructor |}) =
    [SetInnerHTML TableSkeleton; Ajax "/rows?run=3&get-columns=true" "POST" "/rows?run=3"].
Proof.
  split.
  - apply (column_request_url
             {| attributes := {[ "server-url" := "/rows" ]}; fields := constructor |}
             "/rows").
    + reflexivity.
    + apply no_query_of_indexOf. reflexivity.
  - apply (column_request_url
             {| attributes := {[ "server-url" := "/rows?run=3" ]}; fields := constructor |}
             "/rows?run=3").
    + reflexivity.
    + exists "/rows", "run=3". reflexivity.
Defined.

(** C7: a successful column response [columns] initializes the table with
    one column per name, in the response's order, the name being both the
    data key and the title; the response ["a","b"] gives exactly the two
    columns titled "a" and "b". *)
Theorem columns_from_response (el : Element Fields) (serverUrl : string)
    (columns : list string) :
  (exists options,
     trace (success serverUrl columns el) = [DataTableInit (table_in (fields el)) options]
     /\ map title (Js.columns options) = columns
     /\ map data (Js.columns options) = columns
     /\ length (Js.columns options) = length columns
     /\ ajax options = {| url := serverUrl; type := "POST" |}
     /\ serverSide options = true)
  /\ final (success serverUrl columns el) = el
  /\ trace (success serverUrl ["a"; "b"] el) =
       [DataTableInit (table_in (fields el))
          {| processing := true; serverSide := true;
             ajax := {| url := serverUrl; type := "POST" |};
             columns := [{| data := "a"; title := "a" |};
                         {| data := "b"; title := "b" |}];
             searchDelay := 500 |}].
Proof.
  split; [|split].
  - eexists. split; [reflexivity|]. cbn [Js.columns ajax serverSide].
    rewrite !map_map. cbn [title data]. rewrite map_id, length_map. auto.
  - destruct el. reflexivity.
  - reflexivity.
Qed.

(** The guard on [server-url]: a notification whose new value equals the old one
    leaves the element as it is (nothing cleared, fetched or initialized);
    one whose new value differs first clears the shadow root and then runs
    [initializeTable] on the cleared element; for a new URL that rebuilds
    the table markup and requests the columns of the new URL, whose answer
    initializes the table bound to that URL. *)
Theorem server_url_change_gating (el : Element Fields) (oldValue newValue : option string) :
  attributes el !! "server-url" = newValue ->
  let log := ConsoleLog [LogValue (JStr "server-url"); LogAttr oldValue; LogAttr newValue] in
  let after := attributeChangedCallback "server-url" oldValue newValue el in
  let cleared := {| attributes := attributes el; fields := {| shadowRoot := Blank |} |} in
  (oldValue = newValue ->
   after = {| completion := Normal tt; final := el; trace := [log] |}) /\
  (oldValue <> newValue ->
   completion after = completion (initializeTable cleared) /\
   final after = final (initializeTable cleared) /\
   trace after = (log :: SetInnerHTML Blank :: trace (initializeTable cleared))) /\
  (oldValue <> newValue -> forall serverUrl, newValue = Some serverUrl ->
   after = {| completion := Normal tt;
              final := {| attributes := attributes el;
                          fields := {| shadowRoot := TableSkeleton |} |};
              trace := [log; SetInnerHTML Blank; SetInnerHTML TableSkeleton;
                        Ajax (columns_url serverUrl) "POST" serverUrl] |} /\
   forall columns,
     trace (success serverUrl columns (final after)) =
       [DataTableInit true
          {| processing := true; serverSide := true;
             ajax := {| url := serverUrl; type := "POST" |};
             columns := map (fun column => {| data := column; title := column |}) columns;
             searchDelay := 500 |}]).
Proof.
  intros Hattr log after cleared. subst log after cleared.
  assert (oldValue <> newValue ->
          attributeChangedCallback "server-url" oldValue newValue el =
          after_effect (ConsoleLog [LogValue (JStr "server-url"); LogAttr oldValue;
                                    LogAttr newValue])
            (after_effect (SetInnerHTML Blank)
               (initializeTable {| attributes := attributes el;
                                   fields := {| shadowRoot := Blank |} |}))) as Hrun.
  { intros Hne. unfold attributeChangedCallback, strict_neq, set_innerHTML, set_fields.
    rewrite (bool_decide_false (oldValue = newValue)) by exact Hne.
    change (bool_decide ("server-url" = "server-url")) with true.
    cbn [andb negb]. js_steps.
    destruct (initializeTable _) as [c s t]. reflexivity. }
  split; [|split].
  - intros ->. unfold attributeChangedCallback, strict_neq.
    rewrite (bool_decide_true (newValue = newValue)) by reflexivity.
    rewrite andb_false_r. reflexivity.
  - intros Hne. rewrite (Hrun Hne). repeat split.
  - intros Hne serverUrl ->. rewrite (Hrun Hne).
    rewrite (initializeTable_run
               {| attributes := attributes el; fields := {| shadowRoot := Blank |} |}
               serverUrl Hattr).
    split; [reflexivity|]. intros columns. reflexivity.
Qed.

Lemma server_url_change_gating_witness :
  let el := {| attributes := {[ "server-url" := "/rows" ]};
               fields := {| shadowRoot := TableSkeleton |} |} in
  attributeChangedCallback "server-url" (Some "/rows") (Some "/rows") el =
    {| completion := Normal tt; final := el;
       trace := [ConsoleLog [LogValue (JStr "server-url"); LogAttr (Some "/rows");
                             LogAttr (Some "/rows")]] |} /\
  trace (attributeChangedCallback "server-url" (Some "/old") (Some "/rows") el) =
    [ConsoleLog [LogValue (JStr "server-url"); LogAttr (Some "/old");
                 LogAttr (Some "/rows")];
     SetInnerHTML Blank; SetInnerHTML TableSkeleton;
     Ajax "/rows?get-columns=true" "POST" "/rows"].
Proof.
  intros el. split.
  - apply (server_url_change_gating el (Some "/rows") (Some "/rows") eq_refl).
    reflexivity.
  - destruct (server_url_change_gating el (Some "/old") (Some "/rows") eq_refl)
      as (_ & _ & H).
    destruct (H ltac:(discriminate) "/rows" eq_refl) as [E _].
    rewrite E. reflexivity.
Defined.

(** The same gating seen from the page: [setAttribute] with the value the
    attribute already has changes nothing. *)
Lemma setAttribute_same_url (el : Element Fields) (value : string) :
  attributes el !! "server-url" = Some value ->
  final (setAttribute "server-url" value el) = el /\
  trace (setAttribute "server-url" value el) =
    [ConsoleLog [LogValue (JStr "server-url"); LogAttr (Some value); LogAttr (Some value)]].
Proof.
  intros H. destruct el as [attrs f]. cbn [attributes] in H.
  unfold setAttribute, notify. cbn [observedAttributes custom_element].
  rewrite bool_decide_true by (apply list_elem_of_In; left; reflexivity).
  cbn [Dom.attributeChangedCallback custom_element].
  unfold attributeChangedCallback, strict_neq. js_run. rewrite H.
  rewrite (bool_decide_true (Some value = Some value)) by reflexivity.
  rewrite andb_false_r. js_run. rewrite (insert_id attrs _ _ H). split; reflexivity.
Qed.

Lemma setAttribute_new_url (el : Element Fields) (value : string) :
  attributes el !! "server-url" <> Some value ->
  setAttribute "server-url" value el =
    {| completion := Normal tt;
       final := {| attributes := <["server-url" := value]> (attributes el);
                   fields := {| shadowRoot := TableSkeleton |} |};
       trace := [ConsoleLog [LogValue (JStr "server-url");
                             LogAttr (attributes el !! "server-url");
                             LogAttr (Some value)];
                 SetInnerHTML Blank; SetInnerHTML TableSkeleton;
                 Ajax (columns_url value) "POST" value] |}.
Proof.
  intros H. destruct el as [attrs f]. cbn [attributes] in *.
  unfold setAttribute, notify. cbn [observedAttributes custom_element].
  rewrite bool_decide_true by (apply list_elem_of_In; left; reflexivity).
  cbn [Dom.attributeChangedCallback custom_element].
  unfold attributeChangedCallback, strict_neq, initializeTable, set_innerHTML.
  js_run.
  change (bool_decide ("server-url" = "server-url")) with true.
  rewrite (bool_decide_false (attrs !! "server-url" = Some value)) by exact H.
  cbn [andb negb]. rewrite lookup_insert_eq. reflexivity.
Qed.

(** Removing the attribute clears and rebuilds the markup, then stops
    at [null.indexOf]: no column request is made. *)
Lemma removeAttribute_server_url (el : Element Fields) (value : string) :
  attributes el !! "server-url" = Some value ->
  removeAttribute "server-url" el =
    {| completion := Throw TypeError;
       final := {| attributes := delete "server-url" (attributes el);
                   fields := {| shadowRoot := TableSkeleton |} |};
       trace := [ConsoleLog [LogValue (JStr "server-url"); LogAttr (Some value);
                             LogAttr None];
                 SetInnerHTML Blank; SetInnerHTML TableSkeleton] |}.
Proof.
  intros H. destruct el as [attrs f]. cbn [attributes] in H.
  unfold removeAttribute, notify. cbn [observedAttributes custom_element].
  rewrite bool_decide_true by (apply list_elem_of_In; left; reflexivity).
  cbn [Dom.attributeChangedCallback custom_element].
  unfold attributeChangedCallback, strict_neq, initializeTable, set_innerHTML.
  js_run. rewrite H. js_run.
  change (bool_decide ("server-url" = "server-url")) with true.
  rewrite (bool_decide_false (Some value = None)) by discriminate.
  cbn [andb negb]. rewrite lookup_delete_eq. reflexivity.
Qed.

(** C2 fails on the code when the attribute is removed: a table with
    [server-url="/rows"] receives [removeAttribute('server-url')], a
    notification whose new value (null) differs from the old one.  The
    shadow root is emptied and the table markup written again, and then
    the handler throws TypeError at [null.indexOf]: no columns are
    requested and no table is initialized, and the attribute is gone.  A
    change to another URL on the same table does request the columns. *)
Theorem removed_server_url_is_not_rebuilt :
  let el := {| attributes := {[ "server-url" := "/rows" ]};
               fields := {| shadowRoot := TableSkeleton |} |} in
  let removed := removeAttribute "server-url" el in
  let changed := setAttribute "server-url" "/other" el in
  removed = attributeChangedCallback "server-url" (Some "/rows") None
              {| attributes := delete "server-url" (attributes el); fields := fields el |} /\
  completion removed = Throw TypeError /\
  trace removed =
    [ConsoleLog [LogValue (JStr "server-url"); LogAttr (Some "/rows"); LogAttr None];
     SetInnerHTML Blank; SetInnerHTML TableSkeleton] /\
  Observe.requested (trace removed) = [] /\
  attributes (final removed) !! "server-url" = None /\
  shadowRoot (fields (final removed)) = TableSkeleton /\
  completion changed = Normal tt /\
  Observe.requested (trace changed) = ["/other?get-columns=true"].
Proof.
  cbv zeta.
  rewrite (removeAttribute_server_url
             {| attributes := {[ "server-url" := "/rows" ]};
                fields := {| shadowRoot := TableSkeleton |} |} "/rows")
    by (cbn [attributes]; apply lookup_singleton_eq).
  rewrite (setAttribute_new_url
             {| attributes := {[ "server-url" := "/rows" ]};
                fields := {| shadowRoot := TableSkeleton |} |} "/other")
    by (cbn [attributes]; rewrite lookup_singleton_eq; discriminate).
  cbn [completion trace final attributes fields shadowRoot].
  split; [|repeat split; apply lookup_delete_eq].
  unfold attributeChangedCallback, strict_neq, initializeTable, set_innerHTML, getAttribute,
    get_fields, set_fields.
  change (bool_decide ("server-url" = "server-url")) with true.
  rewrite (bool_decide_false (Some "/rows" = None)) by discriminate.
  cbn [andb negb]. js_steps. cbn [attributes]. rewrite lookup_delete_eq. reflexivity.
Qed.

End DataTableFacts.

(** ** Live document *)

Module NotebookFacts.
Import Notebook.

Section WithPlatform.
Context `{Platform}.

Lemma on_update_run (data : string) (p : Page) :
  on_update data p =
    let '(c, d) := morphdom (document p) (getElementById (document p) "content") data in
    let patched := {| document := d; lastScrolledTo := lastScrolledTo p;
                      focusedCellId := focusedCellId p |} in
    match c with
    | Throw e => {| completion := Throw e; final := patched; trace := [] |}
    | Normal _ =>
        match querySelector_class d "scroll-to" with
        | None => {| completion := Normal tt; final := patched; trace := [] |}
        | Some target =>
            if bool_decide (Some (node_of target) = lastScrolledTo p)
            then {| completion := Normal tt; final := patched; trace := [] |}
            else {| completion := Normal tt;
                    final := {| document := d; lastScrolledTo := Some (node_of target);
                                focusedCellId := focusedCellId p |};
                    trace := [ConsoleLog [LogValue (JStr "scroll");
                                          LogElement (node_of target)];
                              ScrollIntoView (node_of target) "smooth"] |}
        end
    end.
Proof.
  unfold on_update, call_morphdom, set_document, set_lastScrolledTo. js_run.
  destruct (morphdom _ _ _) as [[[]|e] d]; cbn [document lastScrolledTo focusedCellId].
  - destruct (querySelector_class d "scroll-to") as [target|]; [|reflexivity].
    destruct (bool_decide _); reflexivity.
  - reflexivity.
Qed.

(** One update scrolls at most once, never to the node scrolled to last,
    and remembers the node it scrolled to. *)
Lemma on_update_step (data : string) (p : Page) :
  (scrolled (trace (on_update data p)) = [] /\
   lastScrolledTo (final (on_update data p)) = lastScrolledTo p) \/
  (exists n, scrolled (trace (on_update data p)) = [n] /\
             Some n <> lastScrolledTo p /\
             lastScrolledTo (final (on_update data p)) = Some n).
Proof.
  rewrite on_update_run.
  destruct (morphdom _ _ _) as [[[]|e] d]; [|left; split; reflexivity].
  destruct (querySelector_class d "scroll-to") as [target|]; [|left; split; reflexivity].
  case_bool_decide as E; [left; split; reflexivity|].
  right. exists (node_of target). repeat split; [exact E].
Qed.

Lemma scrolled_app (t1 t2 : list Effect) :
  scrolled (t1 ++ t2) = (scrolled t1 ++ scrolled t2)%list.
Proof. apply omap_app. Qed.

Lemma no_repeat_updates (updates : list string) (p : Page) :
  no_repeat (lastScrolledTo p) (scrolled (deliver on_update updates p).2).
Proof.
  revert p. induction updates as [|data updates IH]; intros p; [exact I|].
  cbn [deliver]. specialize (IH (final (on_update data p))).
  destruct (deliver on_update updates (final (on_update data p))) as [p' t].
  cbn [snd] in *. rewrite scrolled_app.
  destruct (on_update_step data p) as [[-> E] | (n & -> & Hn & E)];
    rewrite E in IH; cbn [app no_repeat]; auto.
Qed.

Lemma no_repeat_constant (prev : option nat) (log : list nat) (n : nat) :
  no_repeat prev log -> Forall (fun x => x = n) log -> (length log <= 1)%nat.
Proof.
  intros Hlog Hall. destruct log as [|a [|b rest]]; cbn [length]; [lia | lia |].
  exfalso. destruct Hlog as (_ & Hb & _).
  inversion Hall as [|? ? -> Hrest]; subst.
  inversion Hrest as [|? ? -> _]; subst.
  apply Hb. reflexivity.
Qed.

(** C4, as the code has it: over any sequence of updates, scroll-into-view
    is never triggered for the element that was scrolled to last, so an
    element is scrolled to again only after another one was scrolled to in
    between, and updates that keep the marker on one element scroll at
    most once; after each patch the first element carrying the marker is
    scrolled into view exactly once when it is not the element scrolled to
    last, and not at all otherwise. *)
Theorem scroll_skips_last_target (p : Page) (updates : list string) :
  no_repeat (lastScrolledTo p) (scrolled (deliver on_update updates p).2) /\
  (forall n, Forall (fun x => x = n) (scrolled (deliver on_update updates p).2) ->
             (length (scrolled (deliver on_update updates p).2) <= 1)%nat) /\
  forall (data : string) (q : Page),
    scrolled (trace (on_update data q)) =
      match completion (on_update data q),
            querySelector_class (document (final (on_update data q))) "scroll-to" with
      | Normal _, Some target =>
          if bool_decide (Some (node_of target) = lastScrolledTo q)
          then []
          else [node_of target]
      | _, _ => []
      end.
Proof.
  split; [apply no_repeat_updates|]. split.
  { intros n. apply no_repeat_constant with (prev := lastScrolledTo p).
    apply no_repeat_updates. }
  intros data q. rewrite on_update_run.
  destruct (morphdom _ _ _) as [[[]|e] d]; [|reflexivity].
  destruct (querySelector_class d "scroll-to") as [target|] eqn:Q.
  - destruct (bool_decide _) eqn:E; cbn [completion final trace document];
      rewrite Q, ?E; reflexivity.
  - cbn [completion final trace document]. rewrite Q. reflexivity.
Qed.

(** [saveCode] either sends the one [save_code] message or throws before
    sending anything. *)
Lemma saveCode_run (cellId : JsValue) (p : Page) :
  saveCode cellId p =
    match getElementById (document p) ("code_" ++ ToString cellId) with
    | Some cell =>
        {| completion := Normal tt; final := p;
           trace := [Emit (JStr "save_code")
                          (JObj {[ "cell_id" := cellId;
                                   "content" := content_of cell ]})] |}
    | None => {| completion := Throw TypeError; final := p; trace := [] |}
    end.
Proof.
  unfold saveCode, emit. js_run.
  destruct (getElementById _ _); reflexivity.
Qed.

Lemma runCell_run (cellId : JsValue) (p : Page) :
  runCell cellId p =
    match getElementById (document p) ("code_" ++ ToString cellId) with
    | Some cell =>
        {| completion := Normal tt; final := p;
           trace := [Emit (JStr "save_code")
                          (JObj {[ "cell_id" := cellId;
                                   "content" := content_of cell ]});
                     Emit (JStr "run_cell") (JObj {[ "cell_id" := cellId ]})] |}
    | None => {| completion := Throw TypeError; final := p; trace := [] |}
    end.
Proof.
  unfold runCell, emit, bind at 1. rewrite saveCode_run.
  destruct (getElementById _ _); reflexivity.
Qed.

(** C10: [runCell] on a cell of the page sends [save_code] with the cell's
    id and its current content and then [run_cell] with the same id; and
    whatever the page, a [run_cell] message is only ever sent right after
    the [save_code] message for the same id. *)
Theorem run_saves_first (cellId : JsValue) (p : Page) :
  (forall cell,
     getElementById (document p) ("code_" ++ ToString cellId) = Some cell ->
     runCell cellId p =
       {| completion := Normal tt; final := p;
          trace := [Emit (JStr "save_code")
                         (JObj {[ "cell_id" := cellId;
                                  "content" := content_of cell ]});
                    Emit (JStr "run_cell") (JObj {[ "cell_id" := cellId ]})] |}) /\
  (forall before payload after,
     trace (runCell cellId p) = (before ++ Emit (JStr "run_cell") payload :: after)%list ->
     payload = JObj {[ "cell_id" := cellId ]} /\
     exists content,
       before = [Emit (JStr "save_code")
                      (JObj {[ "cell_id" := cellId; "content" := content ]})]).
Proof.
  rewrite runCell_run. split.
  - intros cell ->. reflexivity.
  - intros before payload after.
    destruct (getElementById _ _) as [cell|]; cbn [trace]; intros E.
    + destruct before as [|e1 [|e2 before]].
      * discriminate E.
      * cbn [app] in E. injection E as E1 E2 _. subst e1 payload.
        split; [reflexivity | eexists; reflexivity].
      * cbn [app] in E. injection E as _ _ E.
        destruct before; discriminate E.
    + destruct before; discriminate E.
Qed.

End WithPlatform.

(** The marker goes from the first cell to the second and back: three
    scrolls, the first cell twice. *)
Example marker_there_and_back :
  scrolled (deliver (on_update (H := Sample.platform))
                    Sample.there_and_back (initial Sample.doc)).2
  = [2; 3; 2]%nat.
Proof. reflexivity. Qed.

(** C4 as claimed fails: the same element can be scrolled to twice.  The
    marker goes from the first cell to the second and back; each move
    finds an element other than the one scrolled to last. *)
Lemma same_element_scrolled_twice :
  ~ (forall (P : Platform) (p : Page) (updates : list string),
       NoDup (scrolled (deliver on_update updates p).2)).
Proof.
  intros claim.
  specialize (claim Sample.platform (initial Sample.doc) Sample.there_and_back).
  rewrite marker_there_and_back in claim.
  apply NoDup_cons_1_1 in claim. apply claim. right. left.
Qed.

Lemma scroll_skips_last_target_witness :
  (length (scrolled
             (deliver (on_update (H := Sample.platform))
                      Sample.staying (initial Sample.doc)).2) <= 1)%nat.
Proof.
  apply (proj1 (proj2 (scroll_skips_last_target (H := Sample.platform)
                         (initial Sample.doc) Sample.staying))
               2%nat).
  repeat constructor.
Defined.

Lemma run_saves_first_witness :
  runCell (H := Sample.platform) (JStr "a") (initial Sample.doc) =
    {| completion := Normal tt; final := initial Sample.doc;
       trace := [Emit (JStr "save_code")
                      (JObj {[ "cell_id" := JStr "a"; "content" := JStr "print(1)" ]});
                 Emit (JStr "run_cell") (JObj {[ "cell_id" := JStr "a" ]})] |}.
Proof.
  apply (proj1 (run_saves_first (H := Sample.platform) (JStr "a") (initial Sample.doc))
               (El 2 (Some "code_a") [] (JStr "print(1)") [])).
  reflexivity.
Defined.

Example keydown_ctrl_alt_s (p : Page) :
  trace (on_keydown {| key := "s"; ctrlKey := true; altKey := true;
                       target_is_body := true |} p) =
    [ConsoleLog [LogValue (JStr "s")];
     ConsoleLog [LogValue (JStr "Ctrl+Alt+s")];
     Emit (JStr "keydown") (JObj {[ "key" := JStr "Ctrl+Alt+s" ]});
     PreventDefault].
Proof. reflexivity. Qed.

(** C5: the [keydown] message carries the key name prefixed by [Ctrl] when
    Ctrl is held and then by [Alt] when Alt is held, joined with [+]; Ctrl
    and Alt held with key "s" give "Ctrl+Alt+s". *)
Theorem key_combo_encoding (event : KeyboardEvent) (p : Page) :
  emitted (trace (on_keydown event p)) =
    [(JStr "keydown", JObj {[ "key" := JStr (getKeyCombo event) ]})] /\
  getKeyCombo event = join "+" (modifiers event ++ [key event]) /\
  getKeyCombo event =
    (if ctrlKey event then "Ctrl+" else "") ++
    (if altKey event then "Alt+" else "") ++ key event /\
  getKeyCombo {| key := "s"; ctrlKey := true; altKey := true;
                 target_is_body := target_is_body event |} = "Ctrl+Alt+s".
Proof.
  destruct event as [k [] [] []]; repeat split; reflexivity.
Qed.

End NotebookFacts.

(** ** Tracked text box *)

Module TextareaFacts.
Import TextareaWrapper.

(** The fields after [_setEdited(true); _checkNoLongerEdited()] when the
    box shows [v]. *)
Lemma check_after_mark (attrs : gmap string string) (v : string)
    (ds : gmap string string) (orig : option string) (was : bool) :
  fields (final (_checkNoLongerEdited
                   (final (_setEdited true
                             {| attributes := attrs;
                                fields := {| _textarea := {| value := v; dataset := ds |};
                                             _originalContent := orig;
                                             _edited := was |} |})))) =
    {| _textarea := {| value := v;
                       dataset := <["edited" := bool_to_string (negb (loose_eq v orig))]> ds |};
       _originalContent := orig;
       _edited := negb (loose_eq v orig) |}.
Proof.
  unfold _checkNoLongerEdited, _setEdited. js_run.
  cbn [_textarea _originalContent _edited value dataset].
  destruct (loose_eq v orig);
    cbn [negb bool_to_string fields _textarea _originalContent _edited value dataset];
    [|reflexivity].
  rewrite insert_insert_eq. reflexivity.
Qed.

Lemma keeps_state_content : keeps_state content.
Proof. intros s. reflexivity. Qed.

#[export] Hint Resolve keeps_state_content : keeps.

Section WithPlatform.
Context `{Platform}.

Lemma on_input_final (el : Element Fields) :
  final (on_input el) = final (_checkNoLongerEdited (final (_setEdited true el))).
Proof.
  unfold on_input. rewrite JsFacts.final_bind.
  change (completion (_setEdited true el)) with (Normal (A := unit) tt).
  cbv iota beta.
  apply JsFacts.final_bind_keeps. keeps.
Qed.

Lemma input_event_fields (typed : string) (el : Element Fields) :
  let edited := negb (loose_eq typed (_originalContent (fields el))) in
  fields (final (input_event typed el)) =
    {| _textarea := {| value := typed;
                       dataset := <["edited" := bool_to_string edited]>
                                    (dataset (_textarea (fields el))) |};
       _originalContent := _originalContent (fields el);
       _edited := edited |}.
Proof.
  unfold input_event. rewrite JsFacts.final_bind.
  change (completion (edit_text typed el)) with (Normal (A := unit) tt).
  cbv iota beta. rewrite on_input_final.
  destruct el as [attrs [[v ds] orig was]].
  apply (check_after_mark attrs typed ds orig was).
Qed.

Lemma input_event_attributes (typed : string) (el : Element Fields) :
  attributes (final (input_event typed el)) = attributes el.
Proof.
  unfold input_event. rewrite JsFacts.final_bind.
  change (completion (edit_text typed el)) with (Normal (A := unit) tt).
  cbv iota beta. rewrite on_input_final.
  destruct el as [attrs [[v ds] orig was]].
  unfold _checkNoLongerEdited, _setEdited, edit_text. js_run.
  cbn [_textarea _originalContent _edited value dataset].
  destruct (loose_eq _ orig); reflexivity.
Qed.

End WithPlatform.

(** The fields after a notification for [text]. *)
Lemma text_changed_fields (oldValue newValue : option string) (el : Element Fields) :
  let f := fields el in
  let shown := if _edited f then value (_textarea f)
               else normalize_newlines (default "" newValue) in
  fields (final (attributeChangedCallback "text" oldValue newValue el)) =
    if loose_eq shown newValue
    then {| _textarea := {| value := shown;
                            dataset := <["edited" := "false"]> (dataset (_textarea f)) |};
            _originalContent := newValue;
            _edited := false |}
    else {| _textarea := {| value := shown; dataset := dataset (_textarea f) |};
            _originalContent := newValue;
            _edited := _edited f |}.
Proof.
  destruct el as [attrs [[v ds] orig was]].
  unfold attributeChangedCallback.
  change (bool_decide ("text" = "text")) with true.
  change (bool_decide ("text" = "focus")) with false.
  unfold _checkNoLongerEdited, _setEdited, set_value, set_originalContent,
    get_fields, set_fields.
  js_steps. cbn [fields attributes _textarea _originalContent _edited value dataset].
  destruct was; cbn [negb]; js_steps;
    cbn [fields attributes _textarea _originalContent _edited value dataset];
    destruct (loose_eq _ newValue); js_steps; reflexivity.
Qed.

Lemma loose_eq_true (s : string) (o : option string) :
  loose_eq s o = true <-> o = Some s.
Proof.
  destruct o as [s'|]; cbn [loose_eq].
  - rewrite bool_decide_eq_true. split; congruence.
  - split; discriminate.
Qed.

Lemma loose_eq_refl (s : string) : loose_eq s (Some s) = true.
Proof. apply loose_eq_true. reflexivity. Qed.

Lemma loose_eq_false (s : string) (o : option string) :
  loose_eq s o = false <-> o <> Some s.
Proof.
  rewrite <- loose_eq_true. destruct (loose_eq s o); split; congruence.
Qed.

Section Emission.
Context `{Platform}.

Lemma on_input_emitted (el : Element Fields) (text : string)
    (event name : JsValue) (props : gmap string JsValue) :
  attributes el !! "modify-event" = Some text ->
  text <> "" ->
  JSON_parse text = Some event ->
  get_prop event "name" = inr name ->
  get_prop event "params" = inr (JObj props) ->
  emitted (trace (on_input el)) =
    [(name, JObj (<["content" := JStr (value (_textarea (fields el)))]> props))]
  /\ completion (on_input el) = Normal tt.
Proof.
  intros Hattr Htext Hparse Hname Hparams.
  destruct el as [attrs [[v ds] orig was]].
  cbn [attributes fields _textarea value] in *.
  assert (truthy (Some text) = true) as Htruthy.
  { cbn [truthy]. rewrite bool_decide_false by exact Htext. reflexivity. }
  unfold on_input, _checkNoLongerEdited, _setEdited, content, parse,
    getAttribute, get_fields, set_fields.
  js_steps. cbn [fields attributes _textarea _originalContent _edited value dataset].
  destruct (loose_eq v orig); js_steps;
    cbn [fields attributes _textarea _originalContent _edited value dataset];
    rewrite Hattr, Htruthy; cbn [from_option id]; rewrite Hparse; js_steps;
    rewrite Hparams; js_steps;
    cbn [fields attributes _textarea _originalContent _edited value dataset set_prop];
    js_steps; rewrite Hname; js_steps; split; reflexivity.
Qed.

Lemma on_input_without_attribute (el : Element Fields) :
  attributes el !! "modify-event" = None ->
  emitted (trace (on_input el)) = [].
Proof.
  intros Hattr. destruct el as [attrs [[v ds] orig was]].
  cbn [attributes] in Hattr.
  unfold on_input, _checkNoLongerEdited, _setEdited, content, parse,
    getAttribute, get_fields, set_fields.
  js_steps. cbn [fields attributes _textarea _originalContent _edited value dataset].
  destruct (loose_eq v orig); js_steps;
    cbn [fields attributes _textarea _originalContent _edited value dataset];
    rewrite Hattr; reflexivity.
Qed.

Lemma on_focus_emitted (el : Element Fields) (text : string)
    (event name params : JsValue) :
  attributes el !! "focus-event" = Some text ->
  text <> "" ->
  JSON_parse text = Some event ->
  get_prop event "name" = inr name ->
  get_prop event "params" = inr params ->
  on_focus el = {| completion := Normal tt; final := el; trace := [Emit name params] |}.
Proof.
  intros Hattr Htext Hparse Hname Hparams.
  assert (truthy (Some text) = true) as Htruthy.
  { cbn [truthy]. rewrite bool_decide_false by exact Htext. reflexivity. }
  unfold on_focus, parse, getAttribute. js_steps.
  rewrite Hattr, Htruthy. cbn [from_option id]. rewrite Hparse. js_steps.
  rewrite Hname. js_steps. rewrite Hparams. js_steps. reflexivity.
Qed.

Lemma on_focus_without_attribute (el : Element Fields) :
  attributes el !! "focus-event" = None ->
  on_focus el = {| completion := Normal tt; final := el; trace := [] |}.
Proof.
  intros Hattr. unfold on_focus, getAttribute. js_steps.
  rewrite Hattr. reflexivity.
Qed.

(** C9: with [modify-event] set to the JSON text of an event with a
    [params] object, every input sends one message named by the event's
    [name] whose payload is [params] with [content] set to the text now in
    the box; with [focus-event] set, every focus sends one message with
    the event's [name] and its [params] as parsed; with the attribute
    absent nothing is sent. *)
Theorem configured_event_emission (el : Element Fields) :
  (forall text event name props,
     attributes el !! "modify-event" = Some text ->
     text <> "" ->
     JSON_parse text = Some event ->
     get_prop event "name" = inr name ->
     get_prop event "params" = inr (JObj props) ->
     exists payload,
       emitted (trace (on_input el)) = [(name, JObj payload)] /\
       payload = <["content" := JStr (value (_textarea (fields el)))]> props /\
       payload !! "content" = Some (JStr (value (_textarea (fields el)))) /\
       forall k, k <> "content" -> payload !! k = props !! k) /\
  (attributes el !! "modify-event" = None ->
   emitted (trace (on_input el)) = []) /\
  (forall text event name params,
     attributes el !! "focus-event" = Some text ->
     text <> "" ->
     JSON_parse text = Some event ->
     get_prop event "name" = inr name ->
     get_prop event "params" = inr params ->
     trace (on_focus el) = [Emit name params]) /\
  (attributes el !! "focus-event" = None ->
   trace (on_focus el) = []).
Proof.
  repeat split.
  - intros text event name props Hattr Htext Hparse Hname Hparams.
    destruct (on_input_emitted el text event name props Hattr Htext Hparse Hname Hparams)
      as [E _].
    eexists. split; [exact E|]. split; [reflexivity|]. split.
    + apply lookup_insert_eq.
    + intros k Hk. apply lookup_insert_ne. congruence.
  - apply on_input_without_attribute.
  - intros text event name params Hattr Htext Hparse Hname Hparams.
    rewrite (on_focus_emitted el text event name params Hattr Htext Hparse Hname Hparams).
    reflexivity.
  - intros Hattr. rewrite (on_focus_without_attribute el Hattr). reflexivity.
Qed.

(** C1: from any state, [text="X"] followed by an input that leaves "Y"
    in the box, "Y" other than "X", sets the edited flag; while the flag is
    set, a [text] update leaves the box as it is (here still "Y", still
    edited); and [text="Z"] followed by an input that leaves exactly "Z"
    clears the flag. *)
Theorem edit_lifecycle :
  (forall (el : Element Fields) (oldValue oldValue' : option string) (X Y : string),
     X <> Y ->
     let typed := final (input_event Y
                           (final (attributeChangedCallback "text" oldValue (Some X) el))) in
     let pushed := final (attributeChangedCallback "text" oldValue' (Some X) typed) in
     _edited (fields typed) = true /\
     value (_textarea (fields typed)) = Y /\
     dataset (_textarea (fields typed)) !! "edited" = Some "true" /\
     value (_textarea (fields pushed)) = Y /\
     _edited (fields pushed) = true) /\
  (forall (el : Element Fields) (oldValue : option string) (X : string),
     _edited (fields el) = true ->
     value (_textarea (fields (final (attributeChangedCallback "text" oldValue (Some X) el))))
       = value (_textarea (fields el))) /\
  (forall (el : Element Fields) (oldValue : option string) (Z : string),
     let typed := final (input_event Z
                           (final (attributeChangedCallback "text" oldValue (Some Z) el))) in
     _edited (fields typed) = false /\
     value (_textarea (fields typed)) = Z /\
     dataset (_textarea (fields typed)) !! "edited" = Some "false").
Proof.
  assert (forall el oldValue X,
            _originalContent
              (fields (final (attributeChangedCallback "text" oldValue (Some X) el)))
            = Some X) as Horig.
  { intros el oldValue X. rewrite text_changed_fields. cbv zeta.
    destruct (loose_eq _ _); reflexivity. }
  split; [|split].
  - intros el oldValue oldValue' X Y Hne typed pushed.
    assert (fields typed =
            {| _textarea :=
                 {| value := Y;
                    dataset := <["edited" := "true"]>
                      (dataset (_textarea (fields
                         (final (attributeChangedCallback "text" oldValue (Some X) el))))) |};
               _originalContent := Some X;
               _edited := true |}) as Et.
    { subst typed. rewrite input_event_fields. cbv zeta. rewrite Horig.
      rewrite (proj2 (loose_eq_false Y (Some X))) by congruence. reflexivity. }
    assert (fields pushed =
            {| _textarea := _textarea (fields typed);
               _originalContent := Some X;
               _edited := true |}) as Ep.
    { subst pushed. rewrite text_changed_fields. cbv zeta. rewrite Et.
      cbn [_edited _textarea value dataset].
      rewrite (proj2 (loose_eq_false Y (Some X))) by congruence. reflexivity. }
    rewrite Ep, Et. cbn [_edited _textarea value dataset].
    repeat split; try reflexivity. apply lookup_insert_eq.
  - intros el oldValue X Hedited. rewrite text_changed_fields. cbv zeta.
    rewrite Hedited. destruct (loose_eq _ _); reflexivity.
  - intros el oldValue Z typed. subst typed.
    rewrite input_event_fields. cbv zeta. rewrite Horig, loose_eq_refl.
    cbn [negb bool_to_string _edited _textarea value dataset].
    repeat split. apply lookup_insert_eq.
Qed.

End Emission.

(** The control reports a text unchanged exactly when it holds no CR. *)
Lemma normalize_newlines_fixed (s : string) :
  normalize_newlines s = s <-> Observe.has_cr s = false.
Proof.
  induction s as [|c rest IH]; [split; reflexivity|].
  cbn [normalize_newlines Observe.has_cr].
  destruct (Ascii.eqb c "013") eqn:Ec; cbn [orb].
  - apply Ascii.eqb_eq in Ec. subst c. split; [|discriminate].
    destruct rest as [|c' rest']; [discriminate|].
    destruct (Ascii.eqb c' "010"); discriminate.
  - rewrite <- IH. split; [intros E; injection E; auto | intros ->; reflexivity].
Qed.

(** After an input, and after a [text] update to a string, the flag says
    exactly whether the box differs from the value last given. *)
Lemma edited_iff_diverged_after_input `{Platform} (typed : string) (el : Element Fields) :
  let f := fields (final (input_event typed el)) in
  _edited f = true <-> diverged f.
Proof.
  cbv zeta. rewrite input_event_fields. cbv zeta. unfold diverged.
  cbn [_edited _textarea value _originalContent].
  rewrite negb_true_iff, loose_eq_false. split; congruence.
Qed.

Lemma edited_iff_diverged_after_text (oldValue : option string) (s : string)
    (el : Element Fields) :
  normalize_newlines s = s ->
  let f := fields (final (attributeChangedCallback "text" oldValue (Some s) el)) in
  _edited f = true <-> diverged f.
Proof.
  intros Hs. cbv zeta. rewrite text_changed_fields. cbv zeta. unfold diverged.
  destruct (_edited (fields el)) eqn:E; cbn [from_option id].
  - destruct (loose_eq _ _) eqn:L; cbn [_edited _textarea value _originalContent].
    + apply loose_eq_true in L. split; [discriminate | congruence].
    + apply loose_eq_false in L. split; [congruence | reflexivity].
  - rewrite Hs, loose_eq_refl. cbn [_edited _textarea value _originalContent].
    split; [discriminate | congruence].
Qed.

(** A text that the control reports differently (it holds a CR), pushed
    to a box that is not edited: the box shows the normalized text, the
    stored server value is the text as given, and the flag stays down
    although the two differ. *)
Lemma unnormalized_text_while_clean (oldValue : option string) (s : string)
    (el : Element Fields) :
  normalize_newlines s <> s ->
  _edited (fields el) = false ->
  let f := fields (final (attributeChangedCallback "text" oldValue (Some s) el)) in
  _edited f = false /\ value (_textarea f) = normalize_newlines s /\
  _originalContent f = Some s /\ diverged f.
Proof.
  intros Hs E. cbv zeta. rewrite text_changed_fields. cbv zeta. rewrite E.
  cbn [from_option id].
  rewrite (proj2 (loose_eq_false (normalize_newlines s) (Some s))) by congruence.
  cbn [_edited _textarea value _originalContent]. repeat split.
  unfold diverged. cbn [_textarea value _originalContent]. congruence.
Qed.

(** Removing the attribute from a box that is not edited blanks the box
    and stores null, which no text equals: the flag stays down. *)
Lemma text_removed_while_clean (oldValue : option string) (el : Element Fields) :
  _edited (fields el) = false ->
  let f := fields (final (attributeChangedCallback "text" oldValue None el)) in
  _edited f = false /\ value (_textarea f) = "" /\ _originalContent f = None /\ diverged f.
Proof.
  intros E. cbv zeta. rewrite text_changed_fields. cbv zeta. rewrite E.
  cbn [loose_eq from_option _edited _textarea value _originalContent].
  repeat split. unfold diverged. discriminate.
Qed.

(** C3 fails on the code when the attribute is removed: a box showing the
    server's "X" is not edited; after [removeAttribute('text')] it shows
    the empty string, the stored server value is null, and the flag is
    still down although the two differ; typing "a" and deleting it again
    then leaves the flag up on the very text the removal put there. *)
Theorem removed_text_breaks_edited_flag :
  let shown := final (setAttribute "text" "X" Sample.fresh_textarea) in
  let removed := final (removeAttribute "text" shown) in
  let retyped := final (input_event (H := Sample.platform) ""
                          (final (input_event (H := Sample.platform) "a" removed))) in
  (_edited (fields shown) = false /\ ~ diverged (fields shown)) /\
  (_edited (fields removed) = false /\ diverged (fields removed) /\
   value (_textarea (fields removed)) = "" /\
   _originalContent (fields removed) = None) /\
  (_edited (fields retyped) = true /\
   value (_textarea (fields retyped)) = value (_textarea (fields removed))).
Proof.
  cbv zeta. split; [|split].
  - split; [reflexivity|]. intros D. apply D. reflexivity.
  - split; [reflexivity|]. split; [|split; reflexivity].
    unfold diverged. vm_compute. discriminate.
  - split; reflexivity.
Qed.

Lemma edit_lifecycle_witness :
  let typed := final (input_event (H := Sample.platform) "Y"
                        (final (attributeChangedCallback "text" None (Some "X")
                                  Sample.fresh_textarea))) in
  (_edited (fields typed) = true /\ value (_textarea (fields typed)) = "Y") /\
  value (_textarea (fields (final (attributeChangedCallback "text" (Some "X") (Some "X")
                                     typed)))) = "Y".
Proof.
  intros typed. split.
  - destruct (proj1 (edit_lifecycle (H := Sample.platform))
                Sample.fresh_textarea None (Some "X") "X" "Y" ltac:(discriminate))
      as (E & V & _).
    split; [exact E | exact V].
  - apply (proj1 (proj2 (edit_lifecycle (H := Sample.platform)))
             typed (Some "X") "X").
    reflexivity.
Defined.

Lemma configured_event_emission_witness :
  let el := {| attributes := {[ "modify-event" := Sample.event_attribute;
                                "focus-event" := Sample.event_attribute ]};
               fields := TextareaWrapper.constructor |} in
  (exists payload,
     emitted (trace (on_input (H := Sample.platform) el)) = [(JStr "edit", JObj payload)] /\
     payload = <["content" := JStr ""]> {[ "cell" := JStr "c1" ]} /\
     payload !! "content" = Some (JStr "") /\
     forall k, k <> "content" ->
               payload !! k = ({[ "cell" := JStr "c1" ]} : gmap string JsValue) !! k) /\
  trace (on_focus (H := Sample.platform) el) =
    [Emit (JStr "edit") (JObj {[ "cell" := JStr "c1" ]})] /\
  emitted (trace (on_input (H := Sample.platform) Sample.fresh_textarea)) = [] /\
  trace (on_focus (H := Sample.platform) Sample.fresh_textarea) = [].
Proof.
  intros el.
  assert (Sample.event_attribute <> "") as Hne by (vm_compute; discriminate).
  split; [|split; [|split]].
  - apply (proj1 (configured_event_emission (H := Sample.platform) el)
             Sample.event_attribute Sample.event_value (JStr "edit")
             {[ "cell" := JStr "c1" ]});
      [reflexivity | exact Hne | reflexivity | reflexivity | reflexivity].
  - apply (proj1 (proj2 (proj2 (configured_event_emission (H := Sample.platform) el)))
             Sample.event_attribute Sample.event_value (JStr "edit")
             (JObj {[ "cell" := JStr "c1" ]}));
      [reflexivity | exact Hne | reflexivity | reflexivity | reflexivity].
  - apply (proj1 (proj2 (configured_event_emission (H := Sample.platform)
                           Sample.fresh_textarea))).
    reflexivity.
  - apply (proj2 (proj2 (proj2 (configured_event_emission (H := Sample.platform)
                                  Sample.fresh_textarea)))).
    reflexivity.
Defined.

End TextareaFacts.

(** ** The page: which operations raise an alert *)

Module PageFacts.
Import Page.

Lemma silent_emit {S} (event : string) (payload : JsValue) :
  silent (Notebook.emit (S := S) event payload).
Proof. unfold Notebook.emit. silence. Qed.

#[export] Hint Resolve silent_emit : silence.

Section WithPlatform.
Context `{Platform}.

Lemma silent_table_attributeChangedCallback (name : string) (oldValue newValue : option string) :
  silent (DataTable.attributeChangedCallback name oldValue newValue).
Proof.
  unfold DataTable.attributeChangedCallback, DataTable.initializeTable,
    DataTable.set_innerHTML, getAttribute, set_fields.
  silence.
Qed.

Lemma silent_table_initializeTable : silent DataTable.initializeTable.
Proof.
  unfold DataTable.initializeTable, DataTable.set_innerHTML, getAttribute, set_fields.
  silence.
Qed.

Lemma silent_table_success (serverUrl : string) (columns : list string) :
  silent (DataTable.success serverUrl columns).
Proof.
  unfold DataTable.success, DataTable.has_table, get_fields. silence.
Qed.

Lemma silent_on_update (data : string) : silent (Notebook.on_update data).
Proof.
  unfold Notebook.on_update, Notebook.call_morphdom, Notebook.set_document,
    Notebook.set_lastScrolledTo.
  silence.
Qed.

Lemma silent_saveCode (cellId : JsValue) : silent (Notebook.saveCode cellId).
Proof. unfold Notebook.saveCode. silence. Qed.

Lemma silent_runCell (cellId : JsValue) : silent (Notebook.runCell cellId).
Proof. unfold Notebook.runCell. silence. Qed.

Lemma silent_on_code_saved (data : JsValue) : silent (Notebook.on_code_saved data).
Proof. unfold Notebook.on_code_saved. silence. Qed.

Lemma silent_on_keydown (event : Notebook.KeyboardEvent) :
  silent (Notebook.on_keydown event).
Proof. unfold Notebook.on_keydown. silence. Qed.

Lemma silent_setEdited (edited : bool) : silent (TextareaWrapper._setEdited edited).
Proof. unfold TextareaWrapper._setEdited, get_fields, set_fields. silence. Qed.

Lemma silent_checkNoLongerEdited : silent TextareaWrapper._checkNoLongerEdited.
Proof.
  unfold TextareaWrapper._checkNoLongerEdited, get_fields. silence.
Qed.

Lemma silent_set_value (v : option string) : silent (TextareaWrapper.set_value v).
Proof. unfold TextareaWrapper.set_value, get_fields, set_fields. silence. Qed.

Lemma silent_content : silent TextareaWrapper.content.
Proof. unfold TextareaWrapper.content, get_fields. silence. Qed.

Lemma silent_on_input : silent TextareaWrapper.on_input.
Proof.
  unfold TextareaWrapper.on_input, getAttribute.
  silence.
Qed.

Lemma silent_on_focus : silent TextareaWrapper.on_focus.
Proof. unfold TextareaWrapper.on_focus, getAttribute. silence. Qed.

Lemma silent_input_event (typed : string) : silent (TextareaWrapper.input_event typed).
Proof.
  unfold TextareaWrapper.input_event. silence.
Qed.

Lemma silent_textarea_attributeChangedCallback
    (name : string) (oldValue newValue : option string) :
  silent (TextareaWrapper.attributeChangedCallback name oldValue newValue).
Proof.
  unfold TextareaWrapper.attributeChangedCallback, TextareaWrapper.set_originalContent,
    get_fields, set_fields.
  silence.
Qed.

Lemma silent_textarea_connectedCallback : silent TextareaWrapper.connectedCallback.
Proof.
  unfold TextareaWrapper.connectedCallback, TextareaWrapper.set_originalContent,
    getAttribute, get_fields, set_fields.
  silence.
Qed.

(** C6: a failed column request raises exactly one alert, whose message
    ends with the error text, and does nothing else (no new request, no
    markup, no table); no other operation of the three widgets raises an
    alert. *)
Theorem only_column_failure_alerts (op : Operation) (w : World) :
  alerts (trace (step op w)) =
    match op with
    | TableError _ _ error => ["Failed to fetch columns: " ++ error]
    | _ => []
    end /\
  forall xhr status error,
    step (TableError xhr status error) w =
      {| completion := Normal tt; final := w;
         trace := [Alert ("Failed to fetch columns: " ++ error)] |}.
Proof.
  split.
  - destruct op; cbn [step]; unfold on_table, on_notebook, on_textarea;
      try reflexivity;
      apply JsFacts.silent_zoom;
      first
        [ apply silent_table_attributeChangedCallback
        | apply silent_table_initializeTable
        | apply silent_table_success
        | apply silent_on_update
        | apply silent_runCell
        | apply silent_saveCode
        | apply silent_on_code_saved
        | apply silent_on_keydown
        | apply silent_input_event
        | apply silent_on_focus
        | apply silent_setEdited
        | apply silent_checkNoLongerEdited
        | apply silent_textarea_attributeChangedCallback
        | apply silent_textarea_connectedCallback
        | silence ].
  - intros xhr status error. destruct w. reflexivity.
Qed.

End WithPlatform.

End PageFacts.

(** * Further properties of the code *)

(** ** Laws for sending and for invariants *)

Module ObserveFacts.
Import Observe.

Section Bind.
Context {S A B : Type} (m : M S A) (k : A -> M S B).

Lemma preserves_bind (P : S -> Prop) :
  preserves P m -> (forall a, preserves P (k a)) -> preserves P (bind m k).
Proof.
  intros Hm Hk s Hs. rewrite JsFacts.final_bind.
  destruct (completion (m s)); [apply Hk|]; apply Hm, Hs.
Qed.

End Bind.

Section Leaves.
Context {S : Type}.

Lemma preserves_keeps {A} (P : S -> Prop) (m : M S A) :
  keeps_state m -> preserves P m.
Proof. intros Hm s Hs. rewrite Hm. exact Hs. Qed.

Lemma preserves_when (P : S -> Prop) (b : bool) (m : M S unit) :
  preserves P m -> preserves P (when b m).
Proof. destruct b; [auto | intros _ s Hs; exact Hs]. Qed.

(** [s <- read ;; write (f s)] keeps what [f] keeps. *)
Lemma preserves_update (P : S -> Prop) (f : S -> S) :
  (forall s, P s -> P (f s)) -> preserves P (bind read (fun s => write (f s))).
Proof. intros Hf s Hs. apply Hf, Hs. Qed.

End Leaves.

End ObserveFacts.

(** ** Remote table, further *)

Module TableMore.
Import DataTable DataTableFacts Observe.

Lemma set_server_url_attribute (el : Element Fields) (v : string) :
  attributes (final (setAttribute "server-url" v el)) !! "server-url" = Some v.
Proof.
  destruct (decide (attributes el !! "server-url" = Some v)) as [E | E].
  - rewrite (proj1 (setAttribute_same_url el v E)). exact E.
  - rewrite (setAttribute_new_url el v E). cbn [final attributes].
    apply lookup_insert_eq.
Qed.

Lemma set_server_url_requested (el : Element Fields) (v : string) :
  requested (trace (setAttribute "server-url" v el)) =
    (if bool_decide (attributes el !! "server-url" = Some v) then [] else [columns_url v]) /\
  clearings (trace (setAttribute "server-url" v el)) =
    (if bool_decide (attributes el !! "server-url" = Some v) then 0 else 1)%nat.
Proof.
  case_bool_decide as E.
  - rewrite (proj2 (setAttribute_same_url el v E)). split; reflexivity.
  - rewrite (setAttribute_new_url el v E). split; reflexivity.
Qed.

Lemma requested_app (t1 t2 : list Effect) :
  requested (t1 ++ t2) = (requested t1 ++ requested t2)%list.
Proof. apply omap_app. Qed.

Lemma clearings_app (t1 t2 : list Effect) :
  clearings (t1 ++ t2) = (clearings t1 + clearings t2)%nat.
Proof. unfold clearings. rewrite omap_app, length_app. reflexivity. Qed.

(** X1: However the page assigns [server-url], the columns are requested once
    for each assignment that changes the value, from the new value's
    column URL and in that order, and the shadow root is emptied exactly
    as often; assigning the value already there requests nothing. *)
Theorem one_request_per_change (values : list string) (el : Element Fields) :
  requested (set_server_urls values el).2 =
    map columns_url (changes (attributes el !! "server-url") values) /\
  clearings (set_server_urls values el).2 =
    length (changes (attributes el !! "server-url") values).
Proof.
  revert el. induction values as [|v values IH]; intros el; [split; reflexivity|].
  unfold set_server_urls in *. cbn [Notebook.deliver changes].
  specialize (IH (final (setAttribute "server-url" v el))).
  rewrite set_server_url_attribute in IH.
  destruct (Notebook.deliver _ values _) as [el' t]. cbn [snd] in *.
  rewrite requested_app, clearings_app, map_app, length_app.
  destruct (set_server_url_requested el v) as [-> ->].
  destruct IH as [-> ->].
  case_bool_decide; split; reflexivity.
Qed.

(** X2: A late answer still lands: when the URL has moved on from [A] to [B],
    the answer to the column request made for [A] initializes the table
    that was rendered for [B], bound to [A]. *)
Theorem stale_columns_still_apply (el : Element Fields) (A B : string)
    (columns : list string) :
  attributes el !! "server-url" = Some A ->
  A <> B ->
  let moved := final (setAttribute "server-url" B el) in
  attributes moved !! "server-url" = Some B /\
  requested (trace (setAttribute "server-url" B el)) = [columns_url B] /\
  trace (success A columns moved) =
    [DataTableInit true
       {| processing := true; serverSide := true;
          ajax := {| url := A; type := "POST" |};
          columns := map (fun column => {| data := column; title := column |}) columns;
          searchDelay := 500 |}].
Proof.
  intros HA Hne moved. subst moved.
  assert (attributes el !! "server-url" <> Some B) as E by congruence.
  rewrite (setAttribute_new_url el B E). cbn [final attributes trace].
  split; [apply lookup_insert_eq|]. split; reflexivity.
Qed.

Lemma stale_columns_still_apply_witness :
  let el := {| attributes := {[ "server-url" := "/old" ]};
               fields := {| shadowRoot := TableSkeleton |} |} in
  trace (success "/old" ["a"] (final (setAttribute "server-url" "/new" el))) =
    [DataTableInit true
       {| processing := true; serverSide := true;
          ajax := {| url := "/old"; type := "POST" |};
          columns := [{| data := "a"; title := "a" |}];
          searchDelay := 500 |}].
Proof.
  intros el.
  apply (stale_columns_still_apply el "/old" "/new" ["a"]);
    [reflexivity | discriminate].
Defined.

(** X3: Removing [server-url] from a table that has one empties the shadow
    root, writes the table markup again and then throws TypeError at
    [null.indexOf]: no column request is made, and the attribute is gone. *)
Theorem removing_server_url_aborts (el : Element Fields) (value : string) :
  attributes el !! "server-url" = Some value ->
  completion (removeAttribute "server-url" el) = Throw TypeError /\
  requested (trace (removeAttribute "server-url" el)) = [] /\
  clearings (trace (removeAttribute "server-url" el)) = 1%nat /\
  rendered (final (removeAttribute "server-url" el)) /\
  attributes (final (removeAttribute "server-url" el)) !! "server-url" = None.
Proof.
  intros E. rewrite (removeAttribute_server_url el value E).
  cbn [completion trace final attributes]. repeat split.
  apply lookup_delete_eq.
Qed.

Lemma removing_server_url_aborts_witness :
  let el := {| attributes := {[ "server-url" := "/rows" ]};
               fields := {| shadowRoot := TableSkeleton |} |} in
  completion (removeAttribute "server-url" el) = Throw TypeError /\
  requested (trace (removeAttribute "server-url" el)) = [].
Proof.
  intros el.
  destruct (removing_server_url_aborts el "/rows" eq_refl) as (E1 & E2 & _).
  split; [exact E1 | exact E2].
Defined.

Lemma has_query_append (s rest : string) : has_query s -> has_query (s ++ rest).
Proof.
  intros (before & after & ->). exists before, (after ++ rest).
  rewrite !append_assoc. reflexivity.
Qed.

(** X4: Whatever the URL, the empty string included, the column request goes
    to a URL that has a query string: the URL itself, then "?" when it
    had none and "&" when it had one, then [get-columns=true]. *)
Theorem columns_url_has_query (serverUrl : string) :
  has_query (columns_url serverUrl) /\
  (columns_url serverUrl = serverUrl ++ "?get-columns=true" \/
   columns_url serverUrl = serverUrl ++ "&get-columns=true") /\
  columns_url "" = "?get-columns=true".
Proof.
  split; [|split; [|reflexivity]].
  - destruct (has_query_dec serverUrl) as [H | H].
    + rewrite (columns_url_with_query _ H). apply has_query_append, H.
    + rewrite (columns_url_without_query _ H).
      exists serverUrl, "get-columns=true". reflexivity.
  - destruct (has_query_dec serverUrl) as [H | H].
    + right. apply columns_url_with_query, H.
    + left. apply columns_url_without_query, H.
Qed.

End TableMore.

(** ** Live document, further *)

Module NotebookMore.
Import Notebook NotebookFacts Observe.

Section WithPlatform.
Context `{Platform}.

(** X6: The script's memory is its scroll log: after any sequence of updates
    [lastScrolledTo] is the node scrolled to last, and still the initial
    one when nothing was scrolled. *)
Theorem memory_is_last_scroll (updates : list string) (p : Page) :
  lastScrolledTo (deliver on_update updates p).1 =
    last_scrolled (lastScrolledTo p) (scrolled (deliver on_update updates p).2).
Proof.
  revert p. induction updates as [|data updates IH]; intros p; [reflexivity|].
  cbn [deliver]. specialize (IH (final (on_update data p))).
  destruct (deliver on_update updates (final (on_update data p))) as [p' t].
  cbn [fst snd] in *. rewrite scrolled_app. unfold last_scrolled in *.
  rewrite foldl_app, IH.
  destruct (on_update_step data p) as [[-> ->] | (n & -> & _ & ->)]; reflexivity.
Qed.

(** X7: An update whose patch throws, or that leaves no element with the
    marker, scrolls nothing and keeps the memory; the patch's error is the
    handler's. *)
Theorem update_without_target (data : string) (p : Page) :
  (forall e,
     (morphdom (document p) (getElementById (document p) "content") data).1 = Throw e ->
     completion (on_update data p) = Throw e /\
     trace (on_update data p) = [] /\
     lastScrolledTo (final (on_update data p)) = lastScrolledTo p) /\
  (querySelector_class (document (final (on_update data p))) "scroll-to" = None ->
   trace (on_update data p) = [] /\
   lastScrolledTo (final (on_update data p)) = lastScrolledTo p).
Proof.
  rewrite on_update_run.
  destruct (morphdom _ _ _) as [[[]|e'] d]; cbn [fst]; split.
  - intros e E. discriminate E.
  - destruct (querySelector_class d "scroll-to") as [target|] eqn:Q.
    + case_bool_decide; cbn [final document]; rewrite Q; discriminate.
    + intros _. split; reflexivity.
  - intros e E. injection E as ->. repeat split.
  - intros _. split; reflexivity.
Qed.

(** X8: On a page without the cell's element neither message is sent:
    [saveCode] throws TypeError before its emit, and so does [runCell]. *)
Theorem missing_cell_sends_nothing (cellId : JsValue) (p : Page) :
  getElementById (document p) ("code_" ++ ToString cellId) = None ->
  saveCode cellId p = {| completion := Throw TypeError; final := p; trace := [] |} /\
  runCell cellId p = {| completion := Throw TypeError; final := p; trace := [] |}.
Proof.
  intros E. rewrite saveCode_run, runCell_run, E. split; reflexivity.
Qed.

(** X9: Only [update] messages change the script's state: the other handlers
    leave the document and the scroll memory as they were. *)
Theorem only_updates_change_the_page (p : Page) :
  (forall cellId, final (runCell cellId p) = p) /\
  (forall cellId, final (saveCode cellId p) = p) /\
  (forall data, final (on_code_saved data p) = p) /\
  (forall event, final (on_keydown event p) = p) /\
  final (on_connect p) = p.
Proof.
  repeat split.
  - intros cellId. rewrite runCell_run. destruct (getElementById _ _); reflexivity.
  - intros cellId. rewrite saveCode_run. destruct (getElementById _ _); reflexivity.
  - intros data. unfold on_code_saved. destruct (get_prop data "cell_id"); reflexivity.
  - intros event. unfold on_keydown. destruct (target_is_body event); reflexivity.
Qed.

(** X10: The [code_saved] handler only logs: for an object payload it writes
    one console line naming the payload's [cell_id], sends nothing and
    leaves the page as it was; without a payload ([undefined] or [null])
    it throws TypeError before it logs. *)
Theorem code_saved_only_logs (p : Page) :
  (forall props,
     on_code_saved (JObj props) p =
       {| completion := Normal tt; final := p;
          trace := [ConsoleLog
                      [LogValue (JStr ("Code saved for cell " ++
                                       ToString (default JUndefined (props !! "cell_id"))))]] |}) /\
  on_code_saved JUndefined p =
    {| completion := Throw TypeError; final := p; trace := [] |} /\
  on_code_saved JNull p =
    {| completion := Throw TypeError; final := p; trace := [] |}.
Proof.
  repeat split.
Qed.

End WithPlatform.

Lemma missing_cell_sends_nothing_witness :
  runCell (H := Sample.platform) (JStr "zz") (initial Sample.doc) =
    {| completion := Throw TypeError; final := initial Sample.doc; trace := [] |}.
Proof.
  apply (missing_cell_sends_nothing (H := Sample.platform) (JStr "zz")
           (initial Sample.doc)).
  reflexivity.
Defined.

Lemma update_without_target_witness :
  trace (on_update (H := Sample.platform) "" (initial Sample.doc)) = [] /\
  lastScrolledTo (final (on_update (H := Sample.platform) "" (initial Sample.doc))) = None.
Proof.
  apply (proj2 (update_without_target (H := Sample.platform) "" (initial Sample.doc))).
  reflexivity.
Defined.

(** X11: The combo string can be decoded: for key names that do not themselves
    begin with "Ctrl+" or "Alt+", equal combos come from equal keys with
    equal Ctrl and Alt states. *)
Theorem key_combo_injective (e1 e2 : KeyboardEvent) :
  modifier_like (key e1) = false ->
  modifier_like (key e2) = false ->
  getKeyCombo e1 = getKeyCombo e2 ->
  ctrlKey e1 = ctrlKey e2 /\ altKey e1 = altKey e2 /\ key e1 = key e2.
Proof.
  destruct e1 as [k1 c1 a1 t1], e2 as [k2 c2 a2 t2]. cbn [key ctrlKey altKey].
  unfold modifier_like. intros [C1 A1]%orb_false_elim [C2 A2]%orb_false_elim E.
  destruct c1, a1, c2, a2; cbv in E; simplify_eq;
    try (repeat split; reflexivity);
    exfalso;
    match goal with k : string |- _ => destruct k end;
    first [ cbv in C1; discriminate C1 | cbv in C2; discriminate C2
          | cbv in A1; discriminate A1 | cbv in A2; discriminate A2 ].
Qed.

Lemma key_combo_injective_witness :
  let e1 := {| key := "+"; ctrlKey := true; altKey := false; target_is_body := true |} in
  let e2 := {| key := "+"; ctrlKey := true; altKey := false; target_is_body := false |} in
  getKeyCombo e1 = "Ctrl++" /\
  (ctrlKey e1 = ctrlKey e2 /\ altKey e1 = altKey e2 /\ key e1 = key e2).
Proof.
  intros e1 e2. split; [reflexivity|].
  apply (key_combo_injective e1 e2); reflexivity.
Defined.

End NotebookMore.

(** ** Tracked text box, further *)

Module TextareaMore.
Import TextareaWrapper TextareaFacts Observe.

Section WithPlatform.
Context `{Platform}.

(** What the [input] listener does after the flag has been settled, for
    each way the [modify-event] attribute can fail to describe an event. *)
Lemma on_input_stops (el : Element Fields) :
  (forall text,
     attributes el !! "modify-event" = Some text -> text <> "" ->
     JSON_parse text = None ->
     completion (on_input el) = Throw SyntaxError /\ emitted (trace (on_input el)) = []) /\
  (forall text event,
     attributes el !! "modify-event" = Some text -> text <> "" ->
     JSON_parse text = Some event ->
     get_prop event "params" = inr JUndefined ->
     completion (on_input el) = Throw TypeError /\ emitted (trace (on_input el)) = []) /\
  (attributes el !! "modify-event" = Some "" ->
   completion (on_input el) = Normal tt /\ emitted (trace (on_input el)) = []).
Proof.
  destruct el as [attrs [[v ds] orig was]]. cbn [attributes].
  assert (forall text, text <> "" -> truthy (Some text) = true) as Htruthy.
  { intros text Htext. cbn [truthy]. rewrite bool_decide_false by exact Htext.
    reflexivity. }
  split; [|split].
  - intros text Hattr Htext Hparse.
    unfold on_input, _checkNoLongerEdited, _setEdited, content, parse,
      getAttribute, get_fields, set_fields.
    js_steps. cbn [fields attributes _textarea _originalContent _edited value dataset].
    destruct (loose_eq v orig); js_steps;
      cbn [fields attributes _textarea _originalContent _edited value dataset];
      rewrite Hattr, (Htruthy text Htext); cbn [from_option id]; rewrite Hparse;
      js_steps; split; reflexivity.
  - intros text event Hattr Htext Hparse Hparams.
    unfold on_input, _checkNoLongerEdited, _setEdited, content, parse,
      getAttribute, get_fields, set_fields.
    js_steps. cbn [fields attributes _textarea _originalContent _edited value dataset].
    destruct (loose_eq v orig); js_steps;
      cbn [fields attributes _textarea _originalContent _edited value dataset];
      rewrite Hattr, (Htruthy text Htext); cbn [from_option id]; rewrite Hparse;
      js_steps; rewrite Hparams; js_steps; cbn [set_prop]; js_steps;
      split; reflexivity.
  - intros Hattr.
    unfold on_input, _checkNoLongerEdited, _setEdited, content, parse,
      getAttribute, get_fields, set_fields.
    js_steps. cbn [fields attributes _textarea _originalContent _edited value dataset].
    destruct (loose_eq v orig); js_steps;
      cbn [fields attributes _textarea _originalContent _edited value dataset];
      rewrite Hattr; split; reflexivity.
Qed.

Lemma input_event_as_listener (typed : string) (el : Element Fields) :
  completion (input_event typed el) = completion (on_input (final (edit_text typed el)))
  /\ trace (input_event typed el) = trace (on_input (final (edit_text typed el)))
  /\ attributes (final (edit_text typed el)) = attributes el.
Proof.
  unfold input_event. rewrite JsFacts.completion_bind, JsFacts.trace_bind.
  repeat split.
Qed.

(** X12: A [modify-event] attribute that is not JSON does not stop edit
    tracking: the input still settles the flag from the text typed, and
    only then the listener throws SyntaxError, with nothing sent. *)
Theorem malformed_descriptor_keeps_tracking (el : Element Fields) (text typed : string) :
  attributes el !! "modify-event" = Some text ->
  text <> "" ->
  JSON_parse text = None ->
  completion (input_event typed el) = Throw SyntaxError /\
  emitted (trace (input_event typed el)) = [] /\
  value (_textarea (fields (final (input_event typed el)))) = typed /\
  _edited (fields (final (input_event typed el))) =
    negb (loose_eq typed (_originalContent (fields el))).
Proof.
  intros Hattr Htext Hparse.
  destruct (input_event_as_listener typed el) as (-> & -> & Hsame).
  rewrite <- Hsame in Hattr.
  destruct (proj1 (on_input_stops _) text Hattr Htext Hparse) as [-> ->].
  rewrite input_event_fields. repeat split.
Qed.

(** X13: An event descriptor without [params]: the input listener throws
    TypeError at [params.content = ...] and sends nothing, while the focus
    listener sends the message with [undefined] for its payload. *)
Theorem descriptor_without_params (el : Element Fields) (typed intext fotext : string)
    (inevent foevent name : JsValue) :
  attributes el !! "modify-event" = Some intext -> intext <> "" ->
  JSON_parse intext = Some inevent ->
  get_prop inevent "params" = inr JUndefined ->
  attributes el !! "focus-event" = Some fotext -> fotext <> "" ->
  JSON_parse fotext = Some foevent ->
  get_prop foevent "name" = inr name ->
  get_prop foevent "params" = inr JUndefined ->
  completion (input_event typed el) = Throw TypeError /\
  emitted (trace (input_event typed el)) = [] /\
  on_focus el = {| completion := Normal tt; final := el; trace := [Emit name JUndefined] |}.
Proof.
  intros Hin Hintext Hinparse Hinparams Hfo Hfotext Hfoparse Hname Hfoparams.
  destruct (input_event_as_listener typed el) as (-> & -> & Hsame).
  rewrite <- Hsame in Hin.
  destruct (proj1 (proj2 (on_input_stops _)) intext inevent Hin Hintext Hinparse Hinparams)
    as [-> ->].
  repeat split.
  apply (on_focus_emitted el fotext foevent name JUndefined); assumption.
Qed.

(** X14: An empty [modify-event] or [focus-event] attribute counts as absent:
    the listeners return normally and send nothing, without parsing. *)
Theorem empty_descriptor_is_absent (el : Element Fields) (typed : string) :
  (attributes el !! "modify-event" = Some "" ->
   completion (input_event typed el) = Normal tt /\
   emitted (trace (input_event typed el)) = []) /\
  (attributes el !! "focus-event" = Some "" ->
   on_focus el = {| completion := Normal tt; final := el; trace := [] |}).
Proof.
  split.
  - intros Hattr.
    destruct (input_event_as_listener typed el) as (-> & -> & Hsame).
    rewrite <- Hsame in Hattr.
    apply (proj2 (proj2 (on_input_stops _)) Hattr).
  - intros Hattr. unfold on_focus, getAttribute. js_steps. rewrite Hattr. reflexivity.
Qed.

(** X15: The event descriptor is read when the event happens: assigning
    [modify-event] notifies nobody and changes no field, and the next
    input is reported under the descriptor just assigned. *)
Theorem descriptor_takes_effect_on_next_input (el : Element Fields) (text : string)
    (event name : JsValue) (props : gmap string JsValue) :
  text <> "" ->
  JSON_parse text = Some event ->
  get_prop event "name" = inr name ->
  get_prop event "params" = inr (JObj props) ->
  let configured := final (setAttribute "modify-event" text el) in
  trace (setAttribute "modify-event" text el) = [] /\
  fields configured = fields el /\
  emitted (trace (on_input configured)) =
    [(name, JObj (<["content" := JStr (value (_textarea (fields el)))]> props))].
Proof.
  intros Htext Hparse Hname Hparams configured.
  assert (setAttribute "modify-event" text el =
          {| completion := Normal tt;
             final := {| attributes := <["modify-event" := text]> (attributes el);
                         fields := fields el |};
             trace := [] |}) as E.
  { unfold setAttribute, notify, getAttribute, store_attribute.
    cbn [observedAttributes custom_element].
    rewrite bool_decide_false.
    - js_steps. reflexivity.
    - intros [E | [E | E]%elem_of_cons]%elem_of_cons;
        [discriminate E | discriminate E | inversion E]. }
  subst configured. rewrite E. cbn [trace final fields].
  repeat split.
  apply (proj1 (on_input_emitted
                  {| attributes := <["modify-event" := text]> (attributes el);
                     fields := fields el |}
                  text event name props
                  (lookup_insert_eq _ _ _) Htext Hparse Hname Hparams)).
Qed.

End WithPlatform.

Lemma malformed_descriptor_keeps_tracking_witness :
  let el := {| attributes := {[ "modify-event" := "edit" ]};
               fields := TextareaWrapper.constructor |} in
  completion (input_event (H := Sample.platform) "abc" el) = Throw SyntaxError /\
  emitted (trace (input_event (H := Sample.platform) "abc" el)) = [] /\
  value (_textarea (fields (final (input_event (H := Sample.platform) "abc" el)))) = "abc" /\
  _edited (fields (final (input_event (H := Sample.platform) "abc" el))) = true.
Proof.
  intros el.
  apply (malformed_descriptor_keeps_tracking (H := Sample.platform) el "edit" "abc");
    [reflexivity | discriminate | reflexivity].
Defined.

Lemma descriptor_without_params_witness :
  let el := {| attributes := {[ "modify-event" := BareSample.event_attribute;
                                "focus-event" := BareSample.event_attribute ]};
               fields := TextareaWrapper.constructor |} in
  completion (input_event (H := BareSample.platform) "abc" el) = Throw TypeError /\
  emitted (trace (input_event (H := BareSample.platform) "abc" el)) = [] /\
  on_focus (H := BareSample.platform) el =
    {| completion := Normal tt; final := el;
       trace := [Emit (JStr "seen") JUndefined] |}.
Proof.
  intros el.
  assert (BareSample.event_attribute <> "") as Hne by (vm_compute; discriminate).
  apply (descriptor_without_params (H := BareSample.platform) el "abc"
           BareSample.event_attribute BareSample.event_attribute
           BareSample.event_value BareSample.event_value (JStr "seen"));
    first [exact Hne | reflexivity].
Defined.

Lemma empty_descriptor_is_absent_witness :
  let el := {| attributes := {[ "modify-event" := ""; "focus-event" := "" ]};
               fields := TextareaWrapper.constructor |} in
  (completion (input_event (H := Sample.platform) "abc" el) = Normal tt /\
   emitted (trace (input_event (H := Sample.platform) "abc" el)) = []) /\
  on_focus (H := Sample.platform) el =
    {| completion := Normal tt; final := el; trace := [] |}.
Proof.
  intros el. split.
  - apply (proj1 (empty_descriptor_is_absent (H := Sample.platform) el "abc")).
    reflexivity.
  - apply (proj2 (empty_descriptor_is_absent (H := Sample.platform) el "abc")).
    reflexivity.
Defined.

Lemma descriptor_takes_effect_on_next_input_witness :
  emitted (trace (on_input (H := Sample.platform)
                    (final (setAttribute "modify-event" Sample.event_attribute
                              Sample.fresh_textarea)))) =
    [(JStr "edit", JObj (<["content" := JStr ""]> {[ "cell" := JStr "c1" ]}))].
Proof.
  assert (Sample.event_attribute <> "") as Hne by (vm_compute; discriminate).
  apply (descriptor_takes_effect_on_next_input (H := Sample.platform)
           Sample.fresh_textarea Sample.event_attribute Sample.event_value
           (JStr "edit") {[ "cell" := JStr "c1" ]} Hne);
    reflexivity.
Defined.

(** X16: The [focus] attribute: assigning a non-empty value focuses the text
    box without scrolling, assigning the empty string or removing the
    attribute blurs it; the text and the edited flag are not touched. *)
Theorem focus_attribute_toggles (el : Element Fields) :
  (forall v,
     trace (setAttribute "focus" v el) = [if bool_decide (v = "") then Blur else Focus true] /\
     fields (final (setAttribute "focus" v el)) = fields el) /\
  (forall v,
     attributes el !! "focus" = Some v ->
     trace (removeAttribute "focus" el) = [Blur] /\
     fields (final (removeAttribute "focus" el)) = fields el).
Proof.
  assert (bool_decide ("focus" ∈ ["text"; "focus"]) = true) as Hobs.
  { apply bool_decide_eq_true. apply elem_of_cons. right. apply elem_of_cons. left.
    reflexivity. }
  split.
  - intros v. unfold setAttribute, notify, getAttribute, store_attribute.
    cbn [observedAttributes custom_element Dom.attributeChangedCallback].
    rewrite Hobs. unfold attributeChangedCallback.
    change (bool_decide ("focus" = "text")) with false.
    change (bool_decide ("focus" = "focus")) with true.
    js_steps. cbn [truthy]. destruct (bool_decide (v = "")); split; reflexivity.
  - intros v Hv. unfold removeAttribute, notify, getAttribute, store_attribute.
    cbn [observedAttributes custom_element Dom.attributeChangedCallback].
    rewrite Hobs. unfold attributeChangedCallback.
    change (bool_decide ("focus" = "text")) with false.
    change (bool_decide ("focus" = "focus")) with true.
    js_steps. rewrite Hv. js_steps. split; reflexivity.
Qed.

Lemma focus_attribute_toggles_witness :
  trace (removeAttribute "focus"
           {| attributes := {[ "focus" := "1" ]}; fields := TextareaWrapper.constructor |})
  = [Blur].
Proof.
  apply (proj2 (focus_attribute_toggles
                  {| attributes := {[ "focus" := "1" ]};
                     fields := TextareaWrapper.constructor |}) "1").
  reflexivity.
Defined.

(** X17: A [text] update reaches a box that is not edited: the box shows the
    new text as the control reports it (CR LF and CR read back as LF) and
    stays not edited, and the attribute's own string is kept as the server
    value.  And when the box is edited and the update brings exactly the
    text it shows, the flag is cleared. *)
Theorem pushed_text_shows_when_clean (el : Element Fields) (oldValue : option string)
    (s : string) :
  let pushed := fields (final (attributeChangedCallback "text" oldValue (Some s) el)) in
  (_edited (fields el) = false ->
   value (_textarea pushed) = normalize_newlines s /\ _edited pushed = false /\
   _originalContent pushed = Some s) /\
  (_edited (fields el) = true -> value (_textarea (fields el)) = s ->
   value (_textarea pushed) = s /\ _edited pushed = false /\
   dataset (_textarea pushed) !! "edited" = Some "false").
Proof.
  cbv zeta. rewrite text_changed_fields. cbv zeta. split.
  - intros E. rewrite E. cbn [from_option id default].
    destruct (loose_eq (normalize_newlines s) (Some s)); repeat split; exact E.
  - intros -> ->. rewrite loose_eq_refl. repeat split.
    cbn [_textarea dataset]. apply lookup_insert_eq.
Qed.

Lemma pushed_text_shows_when_clean_witness :
  value (_textarea (fields (final (attributeChangedCallback "text" None
                                     (Some Observe.two_lines_crlf)
                                     Sample.fresh_textarea)))) =
  normalize_newlines Observe.two_lines_crlf.
Proof.
  apply (proj1 (pushed_text_shows_when_clean Sample.fresh_textarea None
                  Observe.two_lines_crlf)).
  reflexivity.
Defined.

Lemma connectedCallback_run (el : Element Fields) :
  connectedCallback el =
    {| completion := Normal tt;
       final := {| attributes := attributes el;
                   fields := {| _textarea := {| value := normalize_newlines
                                                           (default "" (attributes el !! "text"));
                                                dataset := dataset (_textarea (fields el)) |};
                                _originalContent := Some (default "" (attributes el !! "text"));
                                _edited := _edited (fields el) |} |};
       trace := [] |}.
Proof.
  destruct el as [attrs [[v ds] orig was]].
  unfold connectedCallback, set_originalContent, set_value, getAttribute,
    get_fields, set_fields.
  js_steps. cbn [fields attributes _textarea _originalContent _edited value dataset].
  destruct (attrs !! "text") as [text|]; [|reflexivity].
  cbn [truthy from_option id]. case_bool_decide as Et; [subst text|]; reflexivity.
Qed.

(** X18: [connectedCallback] takes the [text] attribute (or the empty string)
    as the server value and puts it in the box, which reports it with CR LF
    and CR as LF, silently, but leaves the flag alone: a box that was
    edited loses the typed text and, for a text without CR, stays flagged
    although it now shows the server value. *)
Theorem connecting_resets_text_not_flag (el : Element Fields) :
  let given := default "" (attributes el !! "text") in
  connectedCallback el =
    {| completion := Normal tt;
       final := {| attributes := attributes el;
                   fields := {| _textarea := {| value := normalize_newlines given;
                                                dataset := dataset (_textarea (fields el)) |};
                                _originalContent := Some given;
                                _edited := _edited (fields el) |} |};
       trace := [] |} /\
  (_edited (fields el) = true -> normalize_newlines given = given ->
   _edited (fields (final (connectedCallback el))) = true /\
   ~ diverged (fields (final (connectedCallback el)))).
Proof.
  cbv zeta. rewrite connectedCallback_run. split; [reflexivity|].
  intros Hedited Hplain. cbn [final fields _edited]. split; [exact Hedited|].
  unfold diverged. cbn [_textarea value _originalContent]. rewrite Hplain.
  intros D. apply D. reflexivity.
Qed.

Lemma connecting_resets_text_not_flag_witness :
  let typed := final (input_event (H := Sample.platform) "draft" Sample.fresh_textarea) in
  _edited (fields (final (connectedCallback typed))) = true /\
  ~ diverged (fields (final (connectedCallback typed))).
Proof.
  intros typed.
  apply (proj2 (connecting_resets_text_not_flag typed)); reflexivity.
Defined.

(** X19: Removing the [text] attribute: a box that is not edited is blanked
    and stays not edited; a box that is edited keeps its text and its
    flag.  Either way the stored server value is null afterwards. *)
Theorem removing_text (el : Element Fields) (oldValue : option string) :
  let removed := fields (final (attributeChangedCallback "text" oldValue None el)) in
  _originalContent removed = None /\
  (_edited (fields el) = false ->
   value (_textarea removed) = "" /\ _edited removed = false) /\
  (_edited (fields el) = true ->
   value (_textarea removed) = value (_textarea (fields el)) /\ _edited removed = true).
Proof.
  cbv zeta. rewrite text_changed_fields. cbv zeta. cbn [loose_eq].
  split; [reflexivity|]. split; intros ->; split; reflexivity.
Qed.

Lemma removing_text_witness :
  let typed := final (input_event (H := Sample.platform) "draft" Sample.fresh_textarea) in
  value (_textarea (fields (final (attributeChangedCallback "text" (Some "") None typed))))
  = "draft".
Proof.
  intros typed.
  destruct (removing_text typed (Some "")) as (_ & _ & Hedited).
  destruct (Hedited eq_refl) as [E _]. exact E.
Defined.

(** X20: What a [text] notification and connection do on the platform: the
    [text] branch of [attributeChangedCallback] writes at most the one
    console line of [_checkNoLongerEdited], exactly when the box ends up
    equal to the new server value, and [connectedCallback] does nothing at
    all; so neither sends anything over the socket. *)
Theorem text_updates_send_nothing (el : Element Fields) :
  (forall oldValue newValue,
     let f := fields el in
     let shown := if _edited f then value (_textarea f)
                  else normalize_newlines (default "" newValue) in
     trace (attributeChangedCallback "text" oldValue newValue el) =
       if loose_eq shown newValue
       then [ConsoleLog [LogValue (JStr "no longer considered edited")]]
       else []) /\
  (forall oldValue newValue,
     emitted (trace (attributeChangedCallback "text" oldValue newValue el)) = []) /\
  trace (connectedCallback el) = [].
Proof.
  assert (forall oldValue newValue,
            trace (attributeChangedCallback "text" oldValue newValue el) =
              if loose_eq (if _edited (fields el) then value (_textarea (fields el))
                           else normalize_newlines (default "" newValue)) newValue
              then [ConsoleLog [LogValue (JStr "no longer considered edited")]]
              else []) as Htrace.
  { intros oldValue newValue. destruct el as [attrs [[v ds] orig was]].
    unfold attributeChangedCallback.
    change (bool_decide ("text" = "text")) with true.
    change (bool_decide ("text" = "focus")) with false.
    unfold _checkNoLongerEdited, _setEdited, set_value, set_originalContent,
      get_fields, set_fields.
    js_steps. cbn [fields attributes _textarea _originalContent _edited value dataset].
    destruct was; cbn [negb]; js_steps;
      cbn [fields attributes _textarea _originalContent _edited value dataset];
      destruct (loose_eq _ newValue); js_steps; reflexivity. }
  split; [|split].
  - intros oldValue newValue. cbv zeta. apply Htrace.
  - intros oldValue newValue. rewrite Htrace.
    destruct (loose_eq _ newValue); reflexivity.
  - rewrite connectedCallback_run. reflexivity.
Qed.

(** X21: Where the code does keep the flag right: the constructor's box is not
    edited and shows the server value; after every input event, from
    whatever state, and after every [text] update to a string the control
    reports unchanged (one without CR), the flag is up exactly when the box
    differs from the server value.  A [text] update whose string the
    control reports differently leaves a box that was not edited unflagged
    although it now differs from the server value. *)
Theorem flag_tracks_divergence :
  (_edited TextareaWrapper.constructor = false /\ ~ diverged TextareaWrapper.constructor) /\
  (forall (P : Platform) (typed : string) (el : Element Fields),
     _edited (fields (final (input_event typed el))) = true <->
     diverged (fields (final (input_event typed el)))) /\
  (forall (oldValue : option string) (s : string) (el : Element Fields),
     normalize_newlines s = s ->
     (_edited (fields (final (attributeChangedCallback "text" oldValue (Some s) el))) = true <->
      diverged (fields (final (attributeChangedCallback "text" oldValue (Some s) el))))) /\
  (forall (oldValue : option string) (s : string) (el : Element Fields),
     normalize_newlines s <> s ->
     _edited (fields el) = false ->
     _edited (fields (final (attributeChangedCallback "text" oldValue (Some s) el))) = false /\
     diverged (fields (final (attributeChangedCallback "text" oldValue (Some s) el)))).
Proof.
  split; [|split; [|split]].
  - split; [reflexivity|]. intros D. apply D. reflexivity.
  - intros P typed el. apply (edited_iff_diverged_after_input typed el).
  - intros oldValue s el Hplain. apply (edited_iff_diverged_after_text oldValue s el Hplain).
  - intros oldValue s el Hcr Hclean.
    destruct (unnormalized_text_while_clean oldValue s el Hcr Hclean) as (E & _ & _ & D).
    split; assumption.
Qed.

Lemma flag_tracks_divergence_witness :
  _edited (fields (final (attributeChangedCallback "text" None (Some Observe.two_lines_crlf)
                            Sample.fresh_textarea))) = false /\
  diverged (fields (final (attributeChangedCallback "text" None (Some Observe.two_lines_crlf)
                             Sample.fresh_textarea))).
Proof.
  apply (proj2 (proj2 (proj2 flag_tracks_divergence)) None Observe.two_lines_crlf
           Sample.fresh_textarea).
  - vm_compute. discriminate.
  - reflexivity.
Defined.

End TextareaMore.

(** ** The page, further: invariants of the two custom elements *)

Module PageMore.
Import Page Observe.

Lemma setEdited_mirrors (edited : bool) (el : Element TextareaWrapper.Fields) :
  mirrored (final (TextareaWrapper._setEdited edited el)).
Proof.
  unfold mirrored, flag_mirrored. cbn. apply lookup_insert_eq.
Qed.

Lemma preserves_setEdited (edited : bool) :
  preserves mirrored (TextareaWrapper._setEdited edited).
Proof. intros el _. apply setEdited_mirrors. Qed.

Lemma preserves_set_value (v : option string) :
  preserves mirrored (TextareaWrapper.set_value v).
Proof. intros el Hel. exact Hel. Qed.

Lemma preserves_edit_text (typed : string) :
  preserves mirrored (TextareaWrapper.edit_text typed).
Proof. intros el Hel. exact Hel. Qed.

Lemma preserves_set_originalContent (v : option string) :
  preserves mirrored (TextareaWrapper.set_originalContent v).
Proof. intros el Hel. exact Hel. Qed.

Lemma preserves_checkNoLongerEdited :
  preserves mirrored TextareaWrapper._checkNoLongerEdited.
Proof.
  unfold TextareaWrapper._checkNoLongerEdited.
  apply ObserveFacts.preserves_bind; [apply ObserveFacts.preserves_keeps; keeps|].
  intros f. apply ObserveFacts.preserves_when.
  apply ObserveFacts.preserves_bind; [apply ObserveFacts.preserves_keeps; keeps|].
  intros _. apply preserves_setEdited.
Qed.

Lemma preserves_table_attributeChangedCallback
    (name : string) (oldValue newValue : option string) :
  preserves rendered (DataTable.attributeChangedCallback name oldValue newValue).
Proof.
  intros el Hel. unfold rendered in *.
  unfold DataTable.attributeChangedCallback, DataTable.initializeTable,
    DataTable.set_innerHTML, getAttribute, set_fields.
  destruct (bool_decide (name = "server-url") && strict_neq oldValue newValue).
  - js_steps. cbn [attributes].
    destruct (attributes el !! "server-url"); reflexivity.
  - js_steps. exact Hel.
Qed.

Lemma initializeTable_renders (el : Element DataTable.Fields) :
  rendered (final (DataTable.initializeTable el)).
Proof.
  unfold rendered, DataTable.initializeTable, DataTable.set_innerHTML,
    getAttribute, set_fields.
  js_steps. destruct (attributes el !! "server-url"); reflexivity.
Qed.

Section WithPlatform.
Context `{Platform}.

Lemma preserves_on_input : preserves mirrored TextareaWrapper.on_input.
Proof.
  intros el _. rewrite TextareaFacts.on_input_final.
  apply preserves_checkNoLongerEdited, setEdited_mirrors.
Qed.

Lemma preserves_input_event (typed : string) :
  preserves mirrored (TextareaWrapper.input_event typed).
Proof.
  unfold TextareaWrapper.input_event.
  apply ObserveFacts.preserves_bind; [apply preserves_edit_text|].
  intros _. apply preserves_on_input.
Qed.

Lemma preserves_on_focus : preserves mirrored TextareaWrapper.on_focus.
Proof.
  apply ObserveFacts.preserves_keeps. unfold TextareaWrapper.on_focus. keeps.
Qed.

Lemma preserves_textarea_attributeChangedCallback
    (name : string) (oldValue newValue : option string) :
  preserves mirrored (TextareaWrapper.attributeChangedCallback name oldValue newValue).
Proof.
  unfold TextareaWrapper.attributeChangedCallback.
  apply ObserveFacts.preserves_bind.
  - apply ObserveFacts.preserves_when.
    apply ObserveFacts.preserves_bind; [apply preserves_set_originalContent|].
    intros _.
    apply ObserveFacts.preserves_bind; [apply ObserveFacts.preserves_keeps; keeps|].
    intros f.
    apply ObserveFacts.preserves_bind;
      [apply ObserveFacts.preserves_when, preserves_set_value|].
    intros _. apply preserves_checkNoLongerEdited.
  - intros _. apply ObserveFacts.preserves_when.
    apply ObserveFacts.preserves_keeps. destruct (truthy newValue); keeps.
Qed.

Lemma preserves_textarea_connectedCallback :
  preserves mirrored TextareaWrapper.connectedCallback.
Proof.
  intros el Hel. rewrite TextareaMore.connectedCallback_run.
  exact Hel.
Qed.

(** X22: [data-edited] always says what [_edited] says: the constructor makes
    it so, and no function or listener of the page, of any widget, on any
    input and whether it returns or throws, ever separates the two. *)
Theorem data_edited_mirrors_flag (op : Operation) (w : World) :
  mirrored {| attributes := attributes (textarea w);
              fields := TextareaWrapper.constructor |} /\
  (mirrored (textarea w) -> mirrored (textarea (final (step op w)))).
Proof.
  split; [reflexivity|]. intros Hw.
  destruct op; cbn [step]; unfold on_table, on_notebook, on_textarea;
    cbn [zoom final textarea];
    first
      [ exact Hw
      | reflexivity
      | apply preserves_input_event, Hw
      | apply preserves_on_focus, Hw
      | apply setEdited_mirrors
      | apply preserves_checkNoLongerEdited, Hw
      | apply preserves_textarea_attributeChangedCallback, Hw
      | apply preserves_textarea_connectedCallback, Hw ].
Qed.

(** X5: Once the table markup is in the shadow root it stays there: every
    function and listener of the page other than constructing a new table
    element leaves it in place (an attribute change empties the root only
    to write the markup again), so every later column answer finds the
    table to initialize. *)
Theorem table_markup_stays (op : Operation) (w : World) :
  op <> TableConstructor ->
  rendered (table w) ->
  rendered (table (final (step op w))) /\
  forall serverUrl columns,
    exists options,
      trace (DataTable.success serverUrl columns (table (final (step op w)))) =
        [DataTableInit true options].
Proof.
  intros Hop Hw.
  assert (rendered (table (final (step op w)))) as Hafter.
  { destruct op; cbn [step]; unfold on_table, on_notebook, on_textarea;
      cbn [zoom final table];
      first
        [ exact Hw
        | contradiction
        | apply preserves_table_attributeChangedCallback, Hw
        | apply initializeTable_renders ]. }
  split; [exact Hafter|]. intros serverUrl columns. eexists.
  unfold DataTable.success, DataTable.has_table, get_fields. js_steps.
  unfold rendered in Hafter. rewrite Hafter. reflexivity.
Qed.

End WithPlatform.

Lemma data_edited_mirrors_flag_witness :
  mirrored (textarea (final (step (H := Sample.platform) (TextareaInput "abc")
                               {| table := {| attributes := ∅;
                                              fields := DataTable.constructor |};
                                  notebook := Notebook.initial Sample.doc;
                                  textarea := Sample.fresh_textarea |}))).
Proof.
  apply (proj2 (data_edited_mirrors_flag (H := Sample.platform) (TextareaInput "abc")
                  {| table := {| attributes := ∅; fields := DataTable.constructor |};
                     notebook := Notebook.initial Sample.doc;
                     textarea := Sample.fresh_textarea |})).
  reflexivity.
Defined.

Lemma table_markup_stays_witness :
  rendered (table (final (step (H := Sample.platform)
                            (TableAttributeChangedCallback "server-url" (Some "/a") None)
                            {| table := {| attributes := ∅;
                                           fields := {| DataTable.shadowRoot := TableSkeleton |} |};
                               notebook := Notebook.initial Sample.doc;
                               textarea := Sample.fresh_textarea |}))).
Proof.
  apply (table_markup_stays (H := Sample.platform)
           (TableAttributeChangedCallback "server-url" (Some "/a") None)
           {| table := {| attributes := ∅;
                          fields := {| DataTable.shadowRoot := TableSkeleton |} |};
              notebook := Notebook.initial Sample.doc;
              textarea := Sample.fresh_textarea |});
    [discriminate | reflexivity].
Defined.

End PageMore.
